(** * ollama-python: a shallow embedding of [ollama/_client.py]

    The client marshals requests into JSON HTTP calls, decodes
    newline-delimited JSON streams, rewrites Modelfiles and uploads blobs
    addressed by their SHA-256 digest.  The development follows the source
    function by function.  What the source imports (the file system, the
    HTTP server reached through httpx, [json.loads]) is gathered in an
    environment record; [hashlib.sha256] and [base64.b64encode] are written
    out, so that digests and encodings can be computed.

    [Client] and [AsyncClient] run the same statements, the second with
    [await] in front of each request; one embedding stands for both, and
    the one place where they differ ([upload_bytes]) is modelled apart. *)

From Stdlib Require Import ZArith Lia Ascii String.
From Stdlib Require Import Floats.SpecFloat.
From Equations Require Import Equations.
From stdpp Require Import base option list strings.

Open Scope string_scope.
Open Scope list_scope.

Set Warnings "-register-all".

(** ** Bytes and strings *)

Abbreviation bytes := (list Byte.byte).

Definition byte_Z (b : Byte.byte) : Z := Z.of_N (Byte.to_N b).

Definition Z_byte (z : Z) : Byte.byte :=
  match Byte.of_N (Z.to_N (z mod 256)) with
  | Some b => b
  | None => Byte.x00
  end.

(** [b'...'] literals of the examples. *)
Definition encode_utf8 (s : string) : bytes := String.list_byte_of_string s.

Definition newline : ascii := "010"%char.
Definition nl : string := String newline "".

Definition is_empty (s : string) : bool :=
  match s with EmptyString => true | _ => false end.

(** [str.upper] on the ASCII letters.  Python also maps letters outside
    ASCII, but none of them to a letter of FROM or ADAPTER, so membership in
    that list is decided alike. *)
Definition upper_char (c : ascii) : ascii :=
  let n := Ascii.nat_of_ascii c in
  if (97 <=? n)%nat && (n <=? 122)%nat then Ascii.ascii_of_nat (n - 32) else c.

Fixpoint upper (s : string) : string :=
  match s with
  | EmptyString => EmptyString
  | String c s' => String (upper_char c) (upper s')
  end.

(** [s.partition(sep)] for a separator of one character: the text before
    the first [sep], the separator, the text after it; without a separator
    the whole of [s] and two empty strings. *)
Fixpoint str_partition (sep : ascii) (s : string) : string * string * string :=
  match s with
  | EmptyString => (EmptyString, EmptyString, EmptyString)
  | String c s' =>
      if Ascii.eqb c sep then (EmptyString, String sep EmptyString, s')
      else let '(a, m, b) := str_partition sep s' in (String c a, m, b)
  end.

(** Iterating [io.StringIO(text)]: the lines of [text], each with its
    terminating newline when it has one. *)
Fixpoint readlines (s : string) : list string :=
  match s with
  | EmptyString => []
  | String c s' =>
      if Ascii.eqb c newline then String c EmptyString :: readlines s'
      else match readlines s' with
           | [] => [String c EmptyString]
           | l :: ls => String c l :: ls
           end
  end.

(** A text file read with the default [newline=None]: a carriage return,
    alone or before a newline, is read as a newline. *)
Fixpoint universal_newlines (s : string) : string :=
  match s with
  | EmptyString => EmptyString
  | String c rest =>
      if Ascii.eqb c "013"%char then
        match rest with
        | String c' rest' =>
            if Ascii.eqb c' newline then String newline (universal_newlines rest')
            else String newline (universal_newlines rest)
        | EmptyString => String newline EmptyString
        end
      else String c (universal_newlines rest)
  end.

(** [s.split(sep)]. *)
Fixpoint split_on (sep : ascii) (s : string) : list string :=
  match s with
  | EmptyString => [EmptyString]
  | String c s' =>
      if Ascii.eqb c sep then EmptyString :: split_on sep s'
      else match split_on sep s' with
           | [] => [String c EmptyString]
           | l :: ls => String c l :: ls
           end
  end.

Definition starts_with (p s : string) : bool := String.prefix p s.

(** ** Plain data: what [json.loads] returns and [json.dumps] accepts *)

Inductive json :=
| JNull
| JBool (b : bool)
| JInt (z : Z)
| JFloat (f : spec_float)
| JStr (s : string)
| JArr (l : list json)
| JObj (kvs : list (string * json)).

(** A dict keeps its keys in insertion order. *)
Section Dict.
Context {V : Type}.

Fixpoint dict_get (k : string) (kvs : list (string * V)) : option V :=
  match kvs with
  | [] => None
  | (k', v) :: rest => if String.eqb k k' then Some v else dict_get k rest
  end.

(** [d[k] = v]: in place when the key is there, at the end otherwise. *)
Fixpoint dict_set (k : string) (v : V) (kvs : list (string * V)) : list (string * V) :=
  match kvs with
  | [] => [(k, v)]
  | (k', v') :: rest =>
      if String.eqb k k' then (k, v) :: rest else (k', v') :: dict_set k v rest
  end.
End Dict.

Definition float_is_zero (f : spec_float) : bool :=
  match f with S754_zero _ => true | _ => false end.

(** Truth value of a decoded object, as [if e := ...] tests it. *)
Definition json_truthy (j : json) : bool :=
  match j with
  | JNull => false
  | JBool b => b
  | JInt z => negb (z =? 0)%Z
  | JFloat f => negb (float_is_zero f)
  | JStr s => negb (is_empty s)
  | JArr l => match l with [] => false | _ => true end
  | JObj kvs => match kvs with [] => false | _ => true end
  end.

(** ** Paths ([pathlib.PurePosixPath]) *)

Record path := MkPath { root : string; parts : list string }.

Definition path_root (s : string) : string :=
  if starts_with "///" s then "/"
  else if starts_with "//" s then "//"
  else if starts_with "/" s then "/"
  else "".

Definition keep_part (p : string) : bool :=
  negb (is_empty p) && negb (String.eqb p ".").

(** [Path(s)]: runs of slashes and [.] components are dropped. *)
Definition Path (s : string) : path :=
  {| root := path_root s; parts := filter (fun p => keep_part p = true) (split_on "/" s) |}.

Definition is_absolute (p : path) : bool := negb (is_empty (root p)).

(** [base / p]. *)
Definition joinpath (base p : path) : path :=
  if is_absolute p then p
  else {| root := root base; parts := parts base ++ parts p |}.

Definition tail_string (s : string) : string :=
  match s with EmptyString => EmptyString | String _ s' => s' end.

(** ** The file system

    What the system answers for a path: a file with its content, a
    directory, or an error other than "no such file" ([Refused]: a name
    that is too long, a directory that may not be searched).  A path the
    file system maps to nothing does not exist. *)

Inductive node :=
| File (content : bytes)
| Dir
| Refused.

(** ** base64.b64encode *)

Definition b64_alphabet : string :=
  "ABCDEFGHIJKLMNOPQRSTUVWXYZabcdefghijklmnopqrstuvwxyz0123456789+/".

Definition b64_char (n : Z) : ascii :=
  match String.get (Z.to_nat (Z.land n 63)) b64_alphabet with
  | Some c => c
  | None => "="%char
  end.

Fixpoint b64encode (bs : bytes) : string :=
  match bs with
  | [] => EmptyString
  | [a] =>
      let n := Z.shiftl (byte_Z a) 16 in
      String (b64_char (Z.shiftr n 18)) (String (b64_char (Z.shiftr n 12)) "==")
  | [a; b] =>
      let n := Z.lor (Z.shiftl (byte_Z a) 16) (Z.shiftl (byte_Z b) 8) in
      String (b64_char (Z.shiftr n 18)) (String (b64_char (Z.shiftr n 12))
        (String (b64_char (Z.shiftr n 6)) "="))
  | a :: b :: c :: rest =>
      let n := Z.lor (Z.lor (Z.shiftl (byte_Z a) 16) (Z.shiftl (byte_Z b) 8)) (byte_Z c) in
      String (b64_char (Z.shiftr n 18)) (String (b64_char (Z.shiftr n 12))
        (String (b64_char (Z.shiftr n 6)) (String (b64_char n) (b64encode rest))))
  end.

(** ** hashlib.sha256 (FIPS 180-4)

    Words are integers below [2^32]. *)

Module SHA256.

Definition w32 (z : Z) : Z := z mod 2 ^ 32.
Definition add32 (a b : Z) : Z := w32 (a + b).
Definition rotr (n x : Z) : Z := Z.lor (Z.shiftr x n) (w32 (Z.shiftl x (32 - n))).
Definition not32 (x : Z) : Z := Z.lxor x (2 ^ 32 - 1).

Definition Ch (x y z : Z) : Z := Z.lxor (Z.land x y) (Z.land (not32 x) z).
Definition Maj (x y z : Z) : Z :=
  Z.lxor (Z.lxor (Z.land x y) (Z.land x z)) (Z.land y z).
Definition Sigma0 (x : Z) : Z := Z.lxor (Z.lxor (rotr 2 x) (rotr 13 x)) (rotr 22 x).
Definition Sigma1 (x : Z) : Z := Z.lxor (Z.lxor (rotr 6 x) (rotr 11 x)) (rotr 25 x).
Definition sigma0 (x : Z) : Z := Z.lxor (Z.lxor (rotr 7 x) (rotr 18 x)) (Z.shiftr x 3).
Definition sigma1 (x : Z) : Z := Z.lxor (Z.lxor (rotr 17 x) (rotr 19 x)) (Z.shiftr x 10).

(** The constants are the first 32 bits of the fractional parts of the
    square roots of the first 8 primes ([H0]) and of the cube roots of the
    first 64 primes ([K]). *)
Definition is_prime (n : nat) : bool :=
  forallb (fun d => negb (Nat.eqb (n mod d) 0)) (seq 2 (n - 2)).

Definition primes (count : nat) : list Z :=
  map Z.of_nat (take count (List.filter is_prime (seq 2 310))).

(** The largest [x] below [2 ^ bits] over [acc] with [x ^ k <= n]. *)
Fixpoint root (k n : Z) (bits : nat) (acc : Z) : Z :=
  match bits with
  | O => acc
  | S b =>
      let x := (acc + 2 ^ Z.of_nat b)%Z in
      if (x ^ k <=? n)%Z then root k n b x else root k n b acc
  end.

Definition fraction_of_root (k p : Z) : Z :=
  w32 (root k (p * 2 ^ (32 * k)) 40 0).

Definition K : list Z := Eval vm_compute in map (fraction_of_root 3) (primes 64).

Definition H0 : list Z := Eval vm_compute in map (fraction_of_root 2) (primes 8).

(** Big-endian words of a block. *)
Fixpoint words (bs : bytes) : list Z :=
  match bs with
  | a :: b :: c :: d :: rest =>
      (Z.shiftl (byte_Z a) 24 + Z.shiftl (byte_Z b) 16 + Z.shiftl (byte_Z c) 8 + byte_Z d)%Z
      :: words rest
  | _ => []
  end.

Definition word_bytes (w : Z) : bytes :=
  [Z_byte (Z.shiftr w 24); Z_byte (Z.shiftr w 16); Z_byte (Z.shiftr w 8); Z_byte w].

(** The message schedule, kept as the window of the last sixteen words. *)
Definition next_word (win : list Z) : Z :=
  add32 (add32 (sigma1 (win !!! 14%nat)) (win !!! 9%nat))
        (add32 (sigma0 (win !!! 1%nat)) (win !!! 0%nat)).

Fixpoint schedule (n : nat) (win : list Z) : list Z :=
  match n with
  | O => []
  | S n' => let w := next_word win in w :: schedule n' (tail win ++ [w])
  end.

Definition round (regs : list Z) (kw : Z * Z) : list Z :=
  match regs with
  | [a; b; c; d; e; f; g; h] =>
      let t1 := add32 (add32 (add32 h (Sigma1 e)) (add32 (Ch e f g) (fst kw))) (snd kw) in
      let t2 := add32 (Sigma0 a) (Maj a b c) in
      [add32 t1 t2; a; b; c; add32 d t1; e; f; g]
  | _ => regs
  end.

(** One block of 64 bytes. *)
Definition compress (H : list Z) (block : bytes) : list Z :=
  let w16 := words block in
  let W := w16 ++ schedule 48 w16 in
  zip_with add32 H (fold_left round (zip K W) H).

(** Padding of a message of [n] bytes: a one bit, zeros up to 56 modulo 64,
    the length in bits on 64 bits. *)
Definition padding (n : nat) : bytes :=
  let zeros := ((55 - Z.of_nat n) mod 64)%Z in
  let bits := (Z.of_nat n * 8)%Z in
  Byte.x80 :: replicate (Z.to_nat zeros) Byte.x00
    ++ word_bytes (Z.shiftr bits 32) ++ word_bytes bits.

(** The blocks of a message whose length is a multiple of 64. *)
Definition blocks (data : bytes) : list bytes :=
  map (fun i => take 64 (drop (64 * i) data)) (seq 0 (length data / 64)).

(** The hash function: the digest of a whole message. *)
Definition hash (msg : bytes) : bytes :=
  flat_map word_bytes (fold_left compress (blocks (msg ++ padding (length msg))) H0).

(** *** The hash object

    [sha256()] holds the chaining value, the bytes of the block it has not
    completed yet and the number of bytes it was fed. *)
Record t := Mk { chain : list Z; pending : bytes; count : nat }.

Definition new : t := {| chain := H0; pending := []; count := 0 |}.

Equations? absorb (H : list Z) (data : bytes) : list Z * bytes by wf (length data) lt :=
  absorb H data with (le_lt_dec 64 (length data)) := {
    | left _ => absorb (compress H (take 64 data)) (drop 64 data);
    | right _ => (H, data) }.
Proof. rewrite length_drop. lia. Qed.

Definition update (st : t) (data : bytes) : t :=
  let '(H, rest) := absorb (chain st) (pending st ++ data) in
  {| chain := H; pending := rest; count := count st + length data |}.

Definition digest (st : t) : bytes :=
  flat_map word_bytes (fst (absorb (chain st) (pending st ++ padding (count st)))).

Definition hex_digit (n : Z) : ascii :=
  match String.get (Z.to_nat n) "0123456789abcdef" with
  | Some c => c
  | None => "0"%char
  end.

Fixpoint hex (bs : bytes) : string :=
  match bs with
  | [] => EmptyString
  | b :: rest =>
      String (hex_digit (Z.shiftr (byte_Z b) 4)) (String (hex_digit (Z.land (byte_Z b) 15)) (hex rest))
  end.

Definition hexdigest (st : t) : string := hex (digest st).

End SHA256.

(** ** Python objects

    Immutable values are written out; dicts, [io.BytesIO] buffers and
    generators are objects with an identity and live in the heap, so that a
    caller and the client see the same object. *)

Abbreviation loc := nat.

Inductive pyval :=
| PyNone
| PyBool (b : bool)
| PyInt (z : Z)
| PyFloat (f : spec_float)
| PyStr (s : string)
| PyBytes (b : bytes)
| PyList (l : list pyval)
| PyPath (p : path)
| PyRef (l : loc)
| PyObject.

(** Keyword arguments of a request: [json=...], [content=...] or none. *)
Inductive kwargs :=
| NoArgs
| JsonArg (fields : list (string * pyval))
| ContentArg (chunks : list bytes).

(** The generator made by [_stream]: not started, reading the lines of the
    open response, or finished with the response closed ([unread] are the
    lines it never took from the response). *)
Inductive generator :=
| Unstarted (method url : string) (kw : kwargs)
| Reading (rest : list string)
| Closed (unread : list string).

Inductive object :=
| ODict (kvs : list (string * pyval))
| OBytesIO (data : bytes) (pos : nat)
| OGenerator (g : generator).

Abbreviation heap := (list object).

(** ** HTTP *)

Inductive body :=
| NoBody
| JsonBody (j : json)
| ContentBody (b : bytes).

Record request := MkRequest { method : string; url : string; payload : body }.

(** A response: its status and its body, line by line as [iter_lines]
    gives it. *)
Record response := MkResponse { status_code : Z; lines : list string }.

Definition text (r : response) : string := String.concat nl (lines r).

(** [Response.is_success] *)
Definition is_success (r : response) : bool :=
  (200 <=? status_code r)%Z && (status_code r <=? 299)%Z.

(** ** Exceptions *)

Inductive exn :=
| Exception (arg : json)
| TypeError (msg : string)
| AttributeError (msg : string)
| RuntimeError (msg : string)
| RecursionError
| JSONDecodeError (doc : string)
| OSError (p : path)
| HTTPStatusError (r : response)
| TransportError (r : request).

Inductive result (A : Type) :=
| Ok (a : A)
| Raise (e : exn).
Arguments Ok {A} a.
Arguments Raise {A} e.

Definition result_bind {A B} (r : result A) (k : A -> result B) : result B :=
  match r with
  | Ok a => k a
  | Raise e => Raise e
  end.

Fixpoint result_mapM {A B} (f : A -> result B) (l : list A) : result (list B) :=
  match l with
  | [] => Ok []
  | a :: rest =>
      result_bind (f a) (fun b => result_bind (result_mapM f rest) (fun bs => Ok (b :: bs)))
  end.

(** ** The world outside the client

    The file system, the home directories ([""] names the current user), the
    server (its answer may depend on the requests it has received; [None] is
    a failure of the transport) and [json.loads] ([None] when the text is not
    JSON). *)
Record env := MkEnv {
  fs : path -> option node;
  cwd : path;
  gethomedir : string -> option path;
  server : list request -> request -> option response;
  json_loads : string -> option json }.

(** ** State and the client monad

    The heap of objects and the requests issued so far, oldest first. *)
Record state := MkState { objects : heap; sent : list request }.

(** The state once [reqs] more requests have been issued. *)
Definition after (s : state) (reqs : list request) : state :=
  {| objects := objects s; sent := sent s ++ reqs |}.

Definition M (A : Type) : Type := state -> result A * state.

Definition ret {A} (a : A) : M A := fun s => (Ok a, s).
Definition raise {A} (e : exn) : M A := fun s => (Raise e, s).
Definition bind {A B} (m : M A) (k : A -> M B) : M B :=
  fun s => match m s with
           | (Ok a, s') => k a s'
           | (Raise e, s') => (Raise e, s')
           end.

Notation "x <- m ;; k" := (bind m (fun x => k))
  (at level 100, m at level 99, right associativity).
Notation "m ;;; k" := (bind m (fun _ => k))
  (at level 100, right associativity).

(** [try: m  except Exception as e: handler e] *)
Definition try_except {A} (m : M A) (handler : exn -> M A) : M A :=
  fun s => match m s with
           | (Ok a, s') => (Ok a, s')
           | (Raise e, s') => handler e s'
           end.

Definition lift {A} (r : result A) : M A := fun s => (r, s).
Definition get_heap : M heap := fun s => (Ok (objects s), s).

Definition alloc (o : object) : M loc :=
  fun s => (Ok (length (objects s)),
            {| objects := objects s ++ [o]; sent := sent s |}).

Definition store (l : loc) (o : object) : M unit :=
  fun s => (Ok tt, {| objects := <[l := o]> (objects s); sent := sent s |}).

Fixpoint mapM {A B} (f : A -> M B) (l : list A) : M (list B) :=
  match l with
  | [] => ret []
  | a :: rest => b <- f a ;; bs <- mapM f rest ;; ret (b :: bs)
  end.

Fixpoint forM_ {A} (l : list A) (f : A -> M unit) : M unit :=
  match l with
  | [] => ret tt
  | a :: rest => f a ;;; forM_ rest f
  end.

(** ** Truth values, iteration, serialization *)

Definition truthy (h : heap) (v : pyval) : bool :=
  match v with
  | PyNone => false
  | PyBool b => b
  | PyInt z => negb (z =? 0)%Z
  | PyFloat f => negb (float_is_zero f)
  | PyStr s => negb (is_empty s)
  | PyBytes b => match b with [] => false | _ => true end
  | PyList l => match l with [] => false | _ => true end
  | PyPath _ => true
  | PyRef l => match h !! l with Some (ODict []) => false | _ => true end
  | PyObject => true
  end.

(** [for x in v] over the sequences the signatures allow, and over a str,
    bytes or dict passed in their place.  Numbers, None and paths are not
    iterable.  A buffer or a generator passed for a sequence would be read
    or run by the loop; that is not followed here, and the properties of
    [chat] that depend on it are stated for images that are neither. *)
Definition py_iter (h : heap) (v : pyval) : result (list pyval) :=
  match v with
  | PyList l => Ok l
  | PyStr s => Ok (map (fun c => PyStr (String c EmptyString)) (list_ascii_of_string s))
  | PyBytes b => Ok (map (fun x => PyInt (byte_Z x)) b)
  | PyRef l =>
      match h !! l with
      | Some (ODict kvs) => Ok (map (fun kv => PyStr (fst kv)) kvs)
      | _ => Raise (TypeError "object is not iterable")
      end
  | _ => Raise (TypeError "object is not iterable")
  end.

(** [json.dumps], as httpx applies it to the [json=] argument.  [depth]
    bounds the nesting, as the interpreter's recursion limit does. *)
Fixpoint dumps (depth : nat) (h : heap) (v : pyval) : result json :=
  match depth with
  | O => Raise RecursionError
  | S d =>
      match v with
      | PyNone => Ok JNull
      | PyBool b => Ok (JBool b)
      | PyInt z => Ok (JInt z)
      | PyFloat f => Ok (JFloat f)
      | PyStr s => Ok (JStr s)
      | PyList l => result_bind (result_mapM (dumps d h) l) (fun js => Ok (JArr js))
      | PyRef l =>
          match h !! l with
          | Some (ODict kvs) =>
              result_bind
                (result_mapM (fun kv => result_bind (dumps d h (snd kv))
                                          (fun j => Ok (fst kv, j))) kvs)
                (fun fields => Ok (JObj fields))
          | _ => Raise (TypeError "Object is not JSON serializable")
          end
      | _ => Raise (TypeError "Object is not JSON serializable")
      end
  end.

Definition recursion_limit : nat := 1000.

(** The request httpx builds from the arguments. *)
Definition build_request (h : heap) (method url : string) (kw : kwargs) : result request :=
  match kw with
  | NoArgs => Ok (MkRequest method url NoBody)
  | JsonArg fields =>
      result_bind
        (result_mapM (fun kv => result_bind (dumps recursion_limit h (snd kv))
                                  (fun j => Ok (fst kv, j))) fields)
        (fun js => Ok (MkRequest method url (JsonBody (JObj js))))
  | ContentArg chunks => Ok (MkRequest method url (ContentBody (concat chunks)))
  end.

Arguments build_request : simpl never.

(** ** Files opened for reading *)

Record file := MkFile { f_data : bytes; f_pos : nat }.

(** [r.read(n)] *)
Definition read (n : nat) (r : file) : bytes * file :=
  let chunk := take n (drop (f_pos r) (f_data r)) in
  (chunk, {| f_data := f_data r; f_pos := f_pos r + length chunk |}).

Definition remaining (r : file) : nat := length (f_data r) - f_pos r.

Definition inspect {A} (a : A) : {b : A | a = b} := exist _ a eq_refl.

(** The loop of [_create_blob]:
    [while True: chunk = r.read(n); if not chunk: break; sha256sum.update(chunk)] *)
Equations? hash_loop (n : nat) (r : file) (sha256sum : SHA256.t) : SHA256.t
  by wf (remaining r) lt :=
  hash_loop n r sha256sum with inspect (read n r) := {
    | exist _ ([], _) _ => sha256sum;
    | exist _ (b :: chunk, r') e => hash_loop n r' (SHA256.update sha256sum (b :: chunk)) }.
Proof.
  unfold read in e. injection e as Hc <-. unfold remaining. simpl.
  assert (Hl : length (take n (drop (f_pos r) (f_data r))) <= length (f_data r) - f_pos r)
    by (rewrite length_take, length_drop; lia).
  rewrite Hc in *. simpl in *. lia.
Qed.

(** The generator [upload_bytes] of [AsyncClient._create_blob]: the chunks
    it yields. *)
Equations? upload_bytes (n : nat) (r : file) : list bytes by wf (remaining r) lt :=
  upload_bytes n r with inspect (read n r) := {
    | exist _ ([], _) _ => [];
    | exist _ (b :: chunk, r') e => (b :: chunk) :: upload_bytes n r' }.
Proof.
  unfold read in e. injection e as Hc <-. unfold remaining. simpl.
  assert (Hl : length (take n (drop (f_pos r) (f_data r))) <= length (f_data r) - f_pos r)
    by (rewrite length_take, length_drop; lia).
  rewrite Hc in *. simpl in *. lia.
Qed.

(** ** The client *)

(** What [_request_stream] returns: the decoded body, or the generator. *)
Inductive reply :=
| Body (j : json)
| Iter (l : loc).

(** What [next] gives the caller that iterates a generator. *)
Inductive item :=
| Yield (v : json)
| StopIteration.

(** How the iteration of a caller ends: the generator is exhausted, it
    failed, or the caller stopped asking. *)
Inductive outcome :=
| Exhausted
| Failed (e : exn)
| Suspended.

Definition CHUNK : nat := 32 * 1024.

(** The digest of the bytes an open file still holds. *)
Definition file_digest (r : file) : string :=
  "sha256:" +:+ SHA256.hexdigest (hash_loop CHUNK r SHA256.new).

(** The digest [_create_blob] computes for a file of this content. *)
Definition blob_digest (content : bytes) : string :=
  file_digest {| f_data := content; f_pos := 0 |}.

Section Client.

Context (E : env).

(** [self._client.request]: the request goes out, the server answers. *)
Definition send (req : request) : M response :=
  fun s =>
    let s' := {| objects := objects s; sent := sent s ++ [req] |} in
    match server E (sent s) req with
    | Some r => (Ok r, s')
    | None => (Raise (TransportError req), s')
    end.

(** [response.raise_for_status()]: httpx raises unless the status is 2xx. *)
Definition raise_for_status (r : response) : M unit :=
  if is_success r then ret tt else raise (HTTPStatusError r).

Definition _request (method url : string) (kw : kwargs) : M response :=
  h <- get_heap ;;
  req <- lift (build_request h method url kw) ;;
  response <- send req ;;
  raise_for_status response ;;;
  ret response.

(** [response.json()] *)
Definition response_json (r : response) : M json :=
  match json_loads E (text r) with
  | Some j => ret j
  | None => raise (JSONDecodeError (text r))
  end.

(** *** The stream decoder *)

(** Calling the generator function runs none of its body. *)
Definition _stream (method url : string) (kw : kwargs) : M loc :=
  alloc (OGenerator (Unstarted method url kw)).

(** An exception leaves the [with] block: the response is closed. *)
Definition fail {A} (l : loc) (unread : list string) (e : exn) : M A :=
  store l (OGenerator (Closed unread)) ;;; raise e.

(** The [for] loop of [_stream], from its next line to its next [yield]. *)
Definition resume (l : loc) (rest : list string) : M item :=
  match rest with
  | [] => store l (OGenerator (Closed [])) ;;; ret StopIteration
  | line :: rest' =>
      match json_loads E line with
      | None => fail l rest' (JSONDecodeError line)
      | Some (JObj kvs) =>
          let e := default JNull (dict_get "error" kvs) in
          if json_truthy e then fail l rest' (Exception e)
          else store l (OGenerator (Reading rest')) ;;; ret (Yield (JObj kvs))
      | Some _ => fail l rest' (AttributeError "object has no attribute 'get'")
      end
  end.

(** [next(g)] *)
Definition next (l : loc) : M item :=
  h <- get_heap ;;
  match h !! l with
  | Some (OGenerator (Unstarted method url kw)) =>
      r <- try_except (req <- lift (build_request h method url kw) ;; send req)
                      (fun e => fail l [] e) ;;
      resume l (lines r)
  | Some (OGenerator (Reading rest)) => resume l rest
  | Some (OGenerator (Closed _)) => ret StopIteration
  | _ => raise (TypeError "object is not an iterator")
  end.

Definition _request_stream (method url : string) (kw : kwargs) (stream : bool) : M reply :=
  if stream then l <- _stream method url kw ;; ret (Iter l)
  else r <- _request method url kw ;; j <- response_json r ;; ret (Body j).

(** *** Images *)

Definition _as_path (s : pyval) : option path :=
  match s with
  | PyStr s => Some (Path s)
  | PyPath p => Some p
  | _ => None
  end.

Definition _as_bytesio (s : pyval) : M (option loc) :=
  h <- get_heap ;;
  match s with
  | PyRef l =>
      match h !! l with
      | Some (OBytesIO _ _) => ret (Some l)
      | _ => ret None
      end
  | PyBytes b => l <- alloc (OBytesIO b 0) ;; ret (Some l)
  | _ => ret None
  end.

(** [Path.read_bytes] *)
Definition read_bytes (p : path) : M bytes :=
  match fs E p with
  | Some (File b) => ret b
  | _ => raise (OSError p)
  end.

(** [Path.read_text] *)
Definition read_text (p : path) : M string :=
  b <- read_bytes p ;; ret (universal_newlines (string_of_list_byte b)).

(** [b.read()]: the bytes from the position of the buffer to its end. *)
Definition bytesio_read (l : loc) : M bytes :=
  h <- get_heap ;;
  match h !! l with
  | Some (OBytesIO data pos) =>
      store l (OBytesIO data (Nat.max pos (length data))) ;;;
      ret (drop pos data)
  | _ => raise (AttributeError "object has no attribute 'read'")
  end.

Definition images_message : string :=
  "images must be a list of bytes, path-like objects, or file-like objects".

Definition _encode_image (image : pyval) : M string :=
  match _as_path image with
  | Some p => b <- read_bytes p ;; ret (b64encode b)
  | None =>
      ob <- _as_bytesio image ;;
      match ob with
      | Some l => b <- bytesio_read l ;; ret (b64encode b)
      | None => raise (Exception (JStr images_message))
      end
  end.

(** [[_encode_image(image) for image in images]] *)
Definition encode_images (images : pyval) : M pyval :=
  h <- get_heap ;;
  l <- lift (py_iter h images) ;;
  encoded <- mapM _encode_image l ;;
  ret (PyList (map PyStr encoded)).

(** [v or default] *)
Definition py_or (v : pyval) (default : M pyval) : M pyval :=
  h <- get_heap ;;
  if truthy h v then ret v else default.

(** *** generate *)

Definition generate (model prompt system template : string) (context : pyval)
    (stream raw : bool) (format : string) (images options : pyval) : M reply :=
  if is_empty model then raise (Exception (JStr "must provide a model"))
  else
    context' <- py_or context (ret (PyList [])) ;;
    images' <- py_or images (ret (PyList [])) ;;
    encoded <- encode_images images' ;;
    options' <- py_or options (l <- alloc (ODict []) ;; ret (PyRef l)) ;;
    _request_stream "POST" "/api/generate"
      (JsonArg [("model", PyStr model); ("prompt", PyStr prompt);
                ("system", PyStr system); ("template", PyStr template);
                ("context", context'); ("stream", PyBool stream);
                ("raw", PyBool raw); ("images", encoded);
                ("format", PyStr format); ("options", options')])
      stream.

(** *** chat *)

Definition roles : list string := ["system"; "user"; "assistant"].

Definition quoted (s : string) : string :=
  String (Ascii.ascii_of_nat 34) (s +:+ String (Ascii.ascii_of_nat 34) EmptyString).

Definition role_message : string :=
  "messages must contain a role and it must be one of " +:+ quoted "system" +:+ ", "
    +:+ quoted "user" +:+ ", or " +:+ quoted "assistant".

Definition role_ok (role : pyval) : bool :=
  match role with
  | PyStr s => bool_decide (s ∈ roles)
  | _ => false
  end.

(** [message[k] = v] *)
Definition setitem (l : loc) (k : string) (v : pyval) : M unit :=
  h <- get_heap ;;
  match h !! l with
  | Some (ODict kvs) => store l (ODict (dict_set k v kvs))
  | _ => raise (TypeError "object does not support item assignment")
  end.

(** The body of the loop over the messages. *)
Definition check_message (message : pyval) : M unit :=
  h <- get_heap ;;
  match message with
  | PyRef l =>
      match h !! l with
      | Some (ODict kvs) =>
          let role := default PyNone (dict_get "role" kvs) in
          if negb (truthy h role) || negb (role_ok role) then
            raise (Exception (JStr role_message))
          else if negb (truthy h (default PyNone (dict_get "content" kvs))) then
            raise (Exception (JStr "messages must contain content"))
          else
            let images := default PyNone (dict_get "images" kvs) in
            if truthy h images then
              encoded <- encode_images images ;;
              setitem l "images" encoded
            else ret tt
      | _ => raise (TypeError "messages must be a list of strings")
      end
  | _ => raise (TypeError "messages must be a list of strings")
  end.

Definition chat (model : string) (messages : pyval) (stream : bool)
    (format : string) (options : pyval) : M reply :=
  if is_empty model then raise (Exception (JStr "must provide a model"))
  else
    h <- get_heap ;;
    seq <- py_or messages (ret (PyList [])) ;;
    l <- lift (py_iter h seq) ;;
    forM_ l check_message ;;;
    options' <- py_or options (l <- alloc (ODict []) ;; ret (PyRef l)) ;;
    _request_stream "POST" "/api/chat"
      (JsonArg [("model", PyStr model); ("messages", messages);
                ("stream", PyBool stream); ("format", PyStr format);
                ("options", options')])
      stream.

(** *** pull, push *)

Definition pull (model : string) (insecure stream : bool) : M reply :=
  _request_stream "POST" "/api/pull"
    (JsonArg [("name", PyStr model); ("insecure", PyBool insecure);
              ("stream", PyBool stream)])
    stream.

Definition push (model : string) (insecure stream : bool) : M reply :=
  _request_stream "POST" "/api/push"
    (JsonArg [("name", PyStr model); ("insecure", PyBool insecure);
              ("stream", PyBool stream)])
    stream.

(** *** Blobs and Modelfiles *)

(** [open(path, 'rb')] *)
Definition open_rb (p : path) : M file :=
  match fs E p with
  | Some (File b) => ret {| f_data := b; f_pos := 0 |}
  | _ => raise (OSError p)
  end.

(** [upload] builds the [content=] argument from the reopened file: the
    file itself in [Client], the chunks of [upload_bytes] in
    [AsyncClient]. *)
Definition create_blob_with (upload : file -> list bytes) (p : path) : M string :=
  r <- open_rb p ;;
  let digest := file_digest r in
  try_except
    (_request "HEAD" ("/api/blobs/" +:+ digest) NoArgs ;;; ret tt)
    (fun e =>
       match e with
       | HTTPStatusError response =>
           if negb (status_code response =? 404)%Z then raise e
           else
             r <- open_rb p ;;
             _request "PUT" ("/api/blobs/" +:+ digest) (ContentArg (upload r)) ;;;
             ret tt
       | _ => raise e
       end) ;;;
  ret digest.

Definition _create_blob : path -> M string :=
  create_blob_with (fun r => [drop (f_pos r) (f_data r)]).

Definition async_create_blob : path -> M string :=
  create_blob_with (upload_bytes CHUNK).

(** [Path.expanduser] *)
Definition expanduser (p : path) : M path :=
  if is_absolute p then ret p
  else
    match parts p with
    | first :: rest =>
        if starts_with "~" first then
          match gethomedir E (tail_string first) with
          | Some home => ret {| root := root home; parts := parts home ++ rest |}
          | None => raise (RuntimeError "Could not determine home directory.")
          end
        else ret p
    | [] => ret p
    end.

(** A file or a directory is at [p]. *)
Definition path_exists (p : path) : bool :=
  match fs E p with Some (File _) | Some Dir => true | _ => false end.

(** [Path.exists]: false for a path that is not there; the error of the
    system when it is any other than that. *)
Definition exists_ (p : path) : M bool :=
  match fs E p with
  | Some Refused => raise (OSError p)
  | _ => ret (path_exists p)
  end.

(** One turn of the loop of [_parse_modelfile]: what it prints to [out]. *)
Definition parse_line (base : path) (line : string) : M string :=
  let '(command, _, args) := str_partition " " line in
  args' <-
    (if bool_decide (upper command ∈ ["FROM"; "ADAPTER"]) then
       p <- expanduser (Path args) ;;
       let p := if is_absolute p then p else joinpath base p in
       found <- exists_ p ;;
       if found then
         digest <- _create_blob p ;; ret ("@" +:+ digest)
       else ret args
     else ret args) ;;
  ret (command +:+ " " +:+ args' +:+ nl).

Fixpoint parse_lines (base : path) (ls : list string) (out : string) : M string :=
  match ls with
  | [] => ret out
  | line :: rest =>
      printed <- parse_line base line ;;
      parse_lines base rest (out +:+ printed)
  end.

Definition _parse_modelfile (modelfile : string) (base : option path) : M string :=
  let base := default (cwd E) base in
  parse_lines base (readlines modelfile) EmptyString.

Definition path_parent (p : path) : path :=
  {| root := root p; parts := removelast (parts p) |}.

(** [path]: a str, a Path or None; [modelfile]: a str or None. *)
Definition create (model : string) (path : pyval) (modelfile : option string)
    (stream : bool) : M reply :=
  let from_text :=
    match modelfile with
    | Some m =>
        if negb (is_empty m) then _parse_modelfile m None
        else raise (Exception (JStr "must provide either path or modelfile"))
    | None => raise (Exception (JStr "must provide either path or modelfile"))
    end in
  modelfile' <-
    match _as_path path with
    | Some realpath =>
        found <- exists_ realpath ;;
        if found then
          text <- read_text realpath ;;
          _parse_modelfile text (Some (path_parent realpath))
        else from_text
    | None => from_text
    end ;;
  _request_stream "POST" "/api/create"
    (JsonArg [("name", PyStr model); ("modelfile", PyStr modelfile');
              ("stream", PyBool stream)])
    stream.

(** *** delete, list, copy, show *)

Definition status_of (response : response) : json :=
  JObj [("status", JStr (if (status_code response =? 200)%Z then "success" else "error"))].

Definition delete (model : string) : M json :=
  response <- _request "DELETE" "/api/delete" (JsonArg [("name", PyStr model)]) ;;
  ret (status_of response).

Definition copy (source target : string) : M json :=
  response <- _request "POST" "/api/copy"
    (JsonArg [("source", PyStr source); ("destination", PyStr target)]) ;;
  ret (status_of response).

Definition list_models : M json :=
  response <- _request "GET" "/api/tags" NoArgs ;;
  j <- response_json response ;;
  match j with
  | JObj kvs => ret (default (JArr []) (dict_get "models" kvs))
  | _ => raise (AttributeError "object has no attribute 'get'")
  end.

Definition show (model : string) : M json :=
  response <- _request "GET" "/api/show" (JsonArg [("name", PyStr model)]) ;;
  response_json response.

(** *** A caller that iterates

    [consume n l] calls [next] on the generator up to [n] times and
    gathers what it was given. *)
Fixpoint consume (n : nat) (l : loc) (s : state) : list json * outcome * state :=
  match n with
  | O => ([], Suspended, s)
  | S n' =>
      match next l s with
      | (Ok (Yield v), s') =>
          let '(vs, o, s'') := consume n' l s' in (v :: vs, o, s'')
      | (Ok StopIteration, s') => ([], Exhausted, s')
      | (Raise e, s') => ([], Failed e, s')
      end
  end.

End Client.

(** ** The base URL

    [BaseClient.__init__]: [base_url or os.getenv('OLLAMA_HOST', default)].
    [environ] is the environment of the process. *)
Definition default_host : string := "http://127.0.0.1:11434".

(** [os.getenv(key, default)] *)
Definition getenv (environ : string -> option string) (key default : string) : string :=
  match environ key with
  | Some v => v
  | None => default
  end.

Definition base_url (arg : option string) (environ : string -> option string) : string :=
  match arg with
  | Some u => if negb (is_empty u) then u else getenv environ "OLLAMA_HOST" default_host
  | None => getenv environ "OLLAMA_HOST" default_host
  end.

(** ** Predicates of the properties *)

(** The shapes [_encode_image] accepts: a str or a Path, bytes, a BytesIO. *)
Definition image_shape (h : heap) (v : pyval) : bool :=
  match v with
  | PyStr _ | PyPath _ | PyBytes _ => true
  | PyRef l => match h !! l with Some (OBytesIO _ _) => true | _ => false end
  | _ => false
  end.





(** The exceptions the client raises for an argument it refuses. *)
Definition validation_error (e : exn) : bool :=
  match e with
  | Exception _ | TypeError _ => true
  | _ => false
  end.

(** References a caller can hold: the objects they name exist. *)
Definition ref_okb (h : heap) (v : pyval) : bool :=
  match v with PyRef l => Nat.ltb l (length h) | _ => true end.


(** The same two as propositions. *)
Definition ref_ok (h : heap) (v : pyval) : Prop :=
  match v with PyRef l => l < length h | _ => True end.


(** What [chat] may do to an object: a dict keeps every key but [images]
    and stays empty or not as it was, a buffer keeps its bytes, a generator
    is left alone. *)
Definition same_object (o o' : object) : Prop :=
  match o, o' with
  | ODict kvs, ODict kvs' =>
      (forall k, k <> "images" -> dict_get k kvs' = dict_get k kvs) /\ (kvs = [] <-> kvs' = [])
  | OBytesIO d _, OBytesIO d' _ => d = d'
  | OGenerator g, OGenerator g' => g = g'
  | _, _ => False
  end.

(** Every object of [h] is still there in [h'], changed at most so. *)
Definition stable (h h' : heap) : Prop :=
  forall l o, h !! l = Some o -> exists o', h' !! l = Some o' /\ same_object o o'.

(** The failures of [chat] before it sends anything: a validation error,
    or the error of the file system for an image that cannot be read. *)
Definition allowed (e : exn) : Prop :=
  validation_error e = true \/ exists p, e = OSError p.

(** A decoded line that is yielded: an object whose [error] is absent or
    not true. *)
Definition is_event (j : json) : bool :=
  match j with
  | JObj kvs => negb (json_truthy (default JNull (dict_get "error" kvs)))
  | _ => false
  end.

(** The state in which the generator at [l] has become [g]. *)
Definition with_generator (s : state) (l : loc) (g : generator) : state :=
  {| objects := <[l := OGenerator g]> (objects s); sent := sent s |}.

(** The hash object [st] has been fed the message [m]. *)
Definition fed (st : SHA256.t) (m : bytes) : Prop :=
  SHA256.absorb SHA256.H0 m = (SHA256.chain st, SHA256.pending st)
  /\ SHA256.count st = length m.

(** The error of a response whose status is not 2xx. *)
Definition is_status_error (e : exn) : bool :=
  match e with HTTPStatusError _ => true | _ => false end.

(** A generator whose body has begun to run. *)
Definition started (g : generator) : bool :=
  match g with Unstarted _ _ _ => false | _ => true end.

(** An iteration that came to its end, by exhaustion or by an exception. *)
Definition finished (o : outcome) : bool :=
  match o with Suspended => false | _ => true end.

(** A string of lowercase hexadecimal digits. *)
Definition lower_hex (s : string) : bool :=
  forallb (fun c => existsb (Ascii.eqb c) (list_ascii_of_string "0123456789abcdef"))
          (list_ascii_of_string s).

(** What the loop of [_parse_modelfile] prints for a line it does not
    rewrite. *)
Definition printed_line (line : string) : string :=
  let '(command, _, args) := str_partition " " line in
  command +:+ " " +:+ args +:+ nl.

(** A line whose command is neither FROM nor ADAPTER. *)
Definition other_line (line : string) : bool :=
  negb (bool_decide (upper (fst (fst (str_partition " " line))) ∈ ["FROM"; "ADAPTER"])).

Definition has_space (line : string) : bool :=
  negb (is_empty (snd (fst (str_partition " " line)))).

(** ** Fixtures for the examples

    A file system with one model file, a server that answers the probe and
    the upload with given statuses and every other request with a given
    body, and a decoder for the few lines the examples use. *)

Module Fixture.

Definition path_eqb (p q : path) : bool :=
  String.eqb (root p) (root q) && bool_decide (parts p = parts q).

Definition model_bin : path := Path "/models/model.bin".

Definition files (p : path) : option node :=
  if path_eqb p model_bin then Some (File (encode_utf8 "abc"))
  else if path_eqb p (Path "/models") then Some Dir
  else None.

Definition answers (probe upload other : Z) (body : list string)
    (received : list request) (r : request) : option response :=
  if String.eqb (method r) "HEAD" then Some (MkResponse probe [])
  else if String.eqb (method r) "PUT" then Some (MkResponse upload [])
  else Some (MkResponse other body).

Definition token (s : string) : json := JObj [("response", JStr s); ("done", JBool false)].

Definition loads (line : string) : option json :=
  if String.eqb line "a" then Some (token "a")
  else if String.eqb line "b" then Some (token "b")
  else if String.eqb line "c" then Some (token "c")
  else if String.eqb line "x" then Some (JObj [("error", JStr "x")])
  else if String.eqb line "[]" then Some (JArr [])
  else None.

Definition world (probe upload other : Z) (body : list string) : env :=
  {| fs := files;
     cwd := Path "/models";
     gethomedir := fun _ => None;
     server := answers probe upload other body;
     json_loads := loads |}.

Definition start : state := {| objects := []; sent := [] |}.

(** A message of the user with one image. *)
Definition picture (image : pyval) : object :=
  ODict [("role", PyStr "user"); ("content", PyStr "hi"); ("images", PyList [image])].


Definition holding (h : heap) : state := {| objects := h; sent := [] |}.

End Fixture.

(** * Properties *)

Ltac run :=
  unfold bind, ret, raise, lift, try_except, get_heap, alloc, store in *; simpl in *.

(** ** generate and the model name *)

(** C8: [generate] with an empty model name raises before anything else is
    done: the result is the exception "must provide a model", and the state,
    with the list of requests issued, is the one the call started in. *)
Theorem generate_requires_model (E : env) (prompt system template : string)
    (context : pyval) (stream raw : bool) (format : string) (images options : pyval)
    (s : state) :
  generate E "" prompt system template context stream raw format images options s
    = (Raise (Exception (JStr "must provide a model")), s)
  /\ sent (snd (generate E "" prompt system template context stream raw format images options s))
    = sent s.
Proof. split; reflexivity. Qed.

(** ** delete and copy *)

Lemma request_outcome (E : env) (method url : string) (kw : kwargs) (req : request)
    (r : response) (s : state) :
  build_request (objects s) method url kw = Ok req ->
  server E (sent s) req = Some r ->
  _request E method url kw s
    = (if is_success r then Ok r else Raise (HTTPStatusError r),
       {| objects := objects s; sent := sent s ++ [req] |}).
Proof.
  intros Hb Hs. unfold _request, send, raise_for_status. run.
  rewrite Hb. simpl. rewrite Hs. destruct (is_success r); reflexivity.
Qed.

Lemma is_success_iff (r : response) :
  is_success r = true <-> (200 <= status_code r <= 299)%Z.
Proof. unfold is_success. rewrite andb_true_iff, !Z.leb_le. tauto. Qed.

(** C10: when the server answers the request of [delete] with status 200
    the result is the mapping with status "success"; with any other 2xx
    status it is the mapping with status "error"; with a status outside
    200..299 the call raises the HTTP status error of that response.  The
    same holds of [copy] and the answer to its request. *)
Theorem delete_copy_status (E : env) (model source target : string) (s : state) :
  (forall rd,
     server E (sent s)
       (MkRequest "DELETE" "/api/delete" (JsonBody (JObj [("name", JStr model)])))
       = Some rd ->
     (status_code rd = 200%Z ->
        fst (delete E model s) = Ok (JObj [("status", JStr "success")])) /\
     ((200 <= status_code rd <= 299)%Z -> status_code rd <> 200%Z ->
        fst (delete E model s) = Ok (JObj [("status", JStr "error")])) /\
     (~ (200 <= status_code rd <= 299)%Z ->
        fst (delete E model s) = Raise (HTTPStatusError rd))) /\
  (forall rc,
     server E (sent s)
       (MkRequest "POST" "/api/copy"
          (JsonBody (JObj [("source", JStr source); ("destination", JStr target)])))
       = Some rc ->
     (status_code rc = 200%Z ->
        fst (copy E source target s) = Ok (JObj [("status", JStr "success")])) /\
     ((200 <= status_code rc <= 299)%Z -> status_code rc <> 200%Z ->
        fst (copy E source target s) = Ok (JObj [("status", JStr "error")])) /\
     (~ (200 <= status_code rc <= 299)%Z ->
        fst (copy E source target s) = Raise (HTTPStatusError rc))).
Proof.
  split.
  - intros rd Hd.
    assert (Ed : delete E model s
      = (if is_success rd then Ok (status_of rd) else Raise (HTTPStatusError rd),
         {| objects := objects s; sent := sent s ++
            [MkRequest "DELETE" "/api/delete" (JsonBody (JObj [("name", JStr model)]))] |})).
    { unfold delete, bind. erewrite request_outcome; [|reflexivity|exact Hd].
      destruct (is_success rd); reflexivity. }
    rewrite Ed. simpl. unfold status_of. split; [|split].
    + intros H. replace (is_success rd) with true
        by (symmetry; apply is_success_iff; lia). rewrite H. reflexivity.
    + intros H1 H2. replace (is_success rd) with true
        by (symmetry; apply is_success_iff; lia).
      destruct (Z.eqb_spec (status_code rd) 200); [contradiction | reflexivity].
    + intros H. destruct (is_success rd) eqn:Hs; [|reflexivity].
      apply is_success_iff in Hs. contradiction.
  - intros rc Hc.
    assert (Ec : copy E source target s
      = (if is_success rc then Ok (status_of rc) else Raise (HTTPStatusError rc),
         {| objects := objects s; sent := sent s ++
            [MkRequest "POST" "/api/copy"
               (JsonBody (JObj [("source", JStr source); ("destination", JStr target)]))] |})).
    { unfold copy, bind. erewrite request_outcome; [|reflexivity|exact Hc].
      destruct (is_success rc); reflexivity. }
    rewrite Ec. simpl. unfold status_of. split; [|split].
    + intros H. replace (is_success rc) with true
        by (symmetry; apply is_success_iff; lia). rewrite H. reflexivity.
    + intros H1 H2. replace (is_success rc) with true
        by (symmetry; apply is_success_iff; lia).
      destruct (Z.eqb_spec (status_code rc) 200); [contradiction | reflexivity].
    + intros H. destruct (is_success rc) eqn:Hs; [|reflexivity].
      apply is_success_iff in Hs. contradiction.
Qed.

Lemma delete_copy_status_witness :
  fst (delete (Fixture.world 404 201 204 []) "llama2" Fixture.start)
    = Ok (JObj [("status", JStr "error")])
  /\ fst (copy (Fixture.world 404 201 200 []) "llama2" "backup" Fixture.start)
    = Ok (JObj [("status", JStr "success")])
  /\ fst (delete (Fixture.world 404 201 500 []) "llama2" Fixture.start)
    = Raise (HTTPStatusError (MkResponse 500 [])).
Proof.
  split; [|split].
  - destruct (proj1 (delete_copy_status (Fixture.world 404 201 204 []) "llama2" "llama2"
                       "backup" Fixture.start) _ eq_refl) as (_ & H & _).
    apply H; simpl; lia.
  - destruct (proj2 (delete_copy_status (Fixture.world 404 201 200 []) "llama2" "llama2"
                       "backup" Fixture.start) _ eq_refl) as (H & _).
    apply H; reflexivity.
  - destruct (proj1 (delete_copy_status (Fixture.world 404 201 500 []) "llama2" "llama2"
                       "backup" Fixture.start) _ eq_refl) as (_ & _ & H).
    apply H; simpl; lia.
Defined.

(** ** The blob uploader *)

Lemma take_drop_length {A} (n : nat) (l : list A) :
  take n l ++ drop (length (take n l)) l = l.
Proof.
  rewrite length_take. destruct (Nat.le_gt_cases n (length l)) as [H | H].
  - rewrite Nat.min_l by exact H. apply take_drop.
  - rewrite Nat.min_r by lia. rewrite take_ge, drop_ge by lia. apply app_nil_r.
Qed.
Lemma take_nil_inv {A} (n : nat) (l : list A) : 0 < n -> take n l = [] -> l = [].
Proof. destruct n, l; simpl; intros; (lia || congruence). Qed.
(** The chunks [upload_bytes] yields make up what the file still holds. *)
Lemma upload_bytes_concat (n : nat) (r : file) :
  0 < n -> concat (upload_bytes n r) = drop (f_pos r) (f_data r).
Proof.
  intros Hn. funelim (upload_bytes n r).
  - simpl. symmetry. eapply take_nil_inv; eauto.
  - simpl in *. rewrite H by exact Hn.
    rewrite <- drop_drop, app_comm_cons, <- e'.
    apply take_drop_length.
Qed.

Lemma CHUNK_pos : 0 < CHUNK.
Proof. unfold CHUNK. lia. Qed.

(** X13: [AsyncClient._create_blob] gives the result and issues the
    requests of [Client._create_blob]: the chunks it uploads are the bytes
    of the file. *)
Lemma async_create_blob_eq (E : env) (p : path) (s : state) :
  async_create_blob E p s = _create_blob E p s.
Proof.
  assert (Hu : forall r, concat (upload_bytes CHUNK r) = concat [drop (f_pos r) (f_data r)]).
  { intros r. rewrite upload_bytes_concat by apply CHUNK_pos. simpl. now rewrite app_nil_r. }
  unfold async_create_blob, _create_blob, create_blob_with, open_rb.
  destruct (fs E p) as [[content| |]|]; try reflexivity.
  unfold _request, build_request. run.
  destruct (send E _ s) as [[r|e] s1].
  - unfold raise_for_status. destruct (is_success r); run; try reflexivity.
    destruct (negb _); try reflexivity. rewrite Hu. reflexivity.
  - destruct e; try reflexivity.
    destruct (negb _); try reflexivity. rewrite Hu. reflexivity.
Qed.

(** What [_create_blob] does with a readable file, by the answers of the
    server. *)
Lemma create_blob_run (E : env) (p : path) (content : bytes) (s : state) :
  fs E p = Some (File content) ->
  let digest := blob_digest content in
  let head := MkRequest "HEAD" ("/api/blobs/" +:+ digest) NoBody in
  let put := MkRequest "PUT" ("/api/blobs/" +:+ digest) (ContentBody content) in
  _create_blob E p s =
    match server E (sent s) head with
    | None => (Raise (TransportError head), after s [head])
    | Some probe =>
        if is_success probe then (Ok digest, after s [head])
        else if (status_code probe =? 404)%Z then
          match server E (sent s ++ [head]) put with
          | None => (Raise (TransportError put), after s [head; put])
          | Some r =>
              (if is_success r then Ok digest else Raise (HTTPStatusError r),
               after s [head; put])
          end
        else (Raise (HTTPStatusError probe), after s [head])
    end.
Proof.
  intros Hf digest head put.
  unfold _create_blob, create_blob_with, open_rb. rewrite Hf.
  unfold _request, build_request, send, raise_for_status, after. run. rewrite app_nil_r.
  change (drop 0 content) with content.
  fold (blob_digest content). fold digest. fold head. fold put.
  destruct (server E (sent s) head) as [probe|]; [|reflexivity].
  destruct (is_success probe); [reflexivity|]. simpl.
  destruct (status_code probe =? 404)%Z; [|reflexivity]. simpl.
  rewrite <- app_assoc. simpl.
  destruct (server E (sent s ++ [head]) put) as [r|]; [|reflexivity].
  destruct (is_success r); reflexivity.
Qed.

(** C2, as the code has it: for a path that names a readable file the
    uploader issues exactly one probe (HEAD on the digest of the content).
    A 2xx answer returns the digest with no upload.  A 404 answer is followed
    by exactly one PUT of the content, and the digest is returned when that
    upload is answered 2xx; when the upload fails, its failure is raised.
    Any other answer of the probe is raised as it is, with no upload. *)
Theorem create_blob_probe_then_upload (E : env) (p : path) (content : bytes) (s : state)
    (probe : response) :
  fs E p = Some (File content) ->
  let digest := blob_digest content in
  let head := MkRequest "HEAD" ("/api/blobs/" +:+ digest) NoBody in
  let put := MkRequest "PUT" ("/api/blobs/" +:+ digest) (ContentBody content) in
  server E (sent s) head = Some probe ->
  (is_success probe = true ->
     _create_blob E p s = (Ok digest, after s [head])) /\
  (status_code probe = 404%Z ->
     exists res,
       _create_blob E p s = (res, after s [head; put]) /\
       match server E (sent s ++ [head]) put with
       | Some r => res = if is_success r then Ok digest else Raise (HTTPStatusError r)
       | None => res = Raise (TransportError put)
       end) /\
  (is_success probe = false -> status_code probe <> 404%Z ->
     _create_blob E p s = (Raise (HTTPStatusError probe), after s [head])).
Proof.
  intros Hf digest head put Hp.
  rewrite (create_blob_run E p content s Hf). fold digest head put. rewrite Hp.
  repeat split.
  - intros ->. reflexivity.
  - intros H404.
    assert (Hs : is_success probe = false).
    { unfold is_success. rewrite H404. reflexivity. }
    rewrite Hs, H404. simpl.
    destruct (server E (sent s ++ [head]) put) as [r|]; eexists; split; reflexivity.
  - intros Hs Hne. rewrite Hs.
    destruct (Z.eqb_spec (status_code probe) 404); [contradiction | reflexivity].
Qed.

Lemma create_blob_probe_then_upload_witness :
  fst (_create_blob (Fixture.world 404 201 200 []) Fixture.model_bin Fixture.start)
    = Ok (blob_digest (encode_utf8 "abc"))
  /\ map method (sent (snd (_create_blob (Fixture.world 404 201 200 []) Fixture.model_bin
                             Fixture.start)))
    = ["HEAD"; "PUT"].
Proof.
  destruct (create_blob_probe_then_upload (Fixture.world 404 201 200 []) Fixture.model_bin
              (encode_utf8 "abc") Fixture.start (MkResponse 404 []) eq_refl eq_refl)
    as (_ & H & _).
  destruct (H eq_refl) as (res & Heq & Hres).
  rewrite Heq. simpl in Hres. subst res. split; reflexivity.
Defined.

(** C2 as stated fails where the probe is answered 404 and the upload is
    refused: one probe and one upload are issued, and the call raises the
    status error of the upload in place of returning the digest. *)
Lemma create_blob_upload_refused :
  server (Fixture.world 404 500 200 []) []
    (MkRequest "HEAD" ("/api/blobs/" +:+ blob_digest (encode_utf8 "abc")) NoBody)
    = Some (MkResponse 404 [])
  /\ fst (_create_blob (Fixture.world 404 500 200 []) Fixture.model_bin Fixture.start)
    = Raise (HTTPStatusError (MkResponse 500 []))
  /\ fst (_create_blob (Fixture.world 404 500 200 []) Fixture.model_bin Fixture.start)
    <> Ok (blob_digest (encode_utf8 "abc")).
Proof.
  split; [reflexivity|].
  assert (H : fst (_create_blob (Fixture.world 404 500 200 []) Fixture.model_bin Fixture.start)
              = Raise (HTTPStatusError (MkResponse 500 []))) by (vm_compute; reflexivity).
  split; [exact H | rewrite H; discriminate].
Qed.

(** ** Image encoding *)

Lemma encode_image_buffer (E : env) (s : state) (l : loc) (data : bytes) (pos : nat) :
  objects s !! l = Some (OBytesIO data pos) ->
  _encode_image E (PyRef l) s
    = (Ok (b64encode (drop pos data)),
       {| objects := <[l := OBytesIO data (Nat.max pos (length data))]> (objects s);
          sent := sent s |}).
Proof.
  intros Hl. unfold _encode_image, _as_bytesio, bytesio_read. run. rewrite Hl. simpl.
  rewrite Hl. reflexivity.
Qed.

Lemma encode_image_bytes (E : env) (s : state) (content : bytes) :
  _encode_image E (PyBytes content) s
    = (Ok (b64encode content),
       {| objects := objects s ++ [OBytesIO content (length content)]; sent := sent s |}).
Proof.
  unfold _encode_image, _as_bytesio, bytesio_read. run.
  rewrite lookup_app_r by lia. rewrite Nat.sub_diag. simpl.
  rewrite insert_app_r_alt by lia. rewrite Nat.sub_diag. reflexivity.
Qed.

Lemma encode_image_path (E : env) (s : state) (v : pyval) (p : path) (content : bytes) :
  _as_path v = Some p -> fs E p = Some (File content) ->
  _encode_image E v s = (Ok (b64encode content), s).
Proof.
  intros Hv Hf. unfold _encode_image, read_bytes. rewrite Hv, Hf. reflexivity.
Qed.

(** C7, as the code has it: for every content, raw bytes, any buffer whose
    bytes from its position on are those bytes (so a buffer that holds them
    and stands at its start), and any path, given as a Path or as a str,
    whose file contains them are all encoded to the same base64 string;
    and, in every state, a value of none of these shapes is refused with
    the exception of [_encode_image], the state left as it was. *)
Theorem encode_image_shapes (E : env) (s : state) (content : bytes) :
  fst (_encode_image E (PyBytes content) s) = Ok (b64encode content) /\
  (forall l data pos,
     objects s !! l = Some (OBytesIO data pos) -> drop pos data = content ->
     fst (_encode_image E (PyRef l) s) = Ok (b64encode content)) /\
  (forall p, fs E p = Some (File content) ->
     fst (_encode_image E (PyPath p) s) = Ok (b64encode content)) /\
  (forall name, fs E (Path name) = Some (File content) ->
     fst (_encode_image E (PyStr name) s) = Ok (b64encode content)) /\
  (forall v, image_shape (objects s) v = false ->
     _encode_image E v s = (Raise (Exception (JStr images_message)), s)).
Proof.
  split; [|split; [|split; [|split]]].
  - rewrite encode_image_bytes. reflexivity.
  - intros l data pos Hl Hd.
    rewrite (encode_image_buffer E s l data pos Hl), Hd. reflexivity.
  - intros p Hp.
    rewrite (encode_image_path E s (PyPath p) p content eq_refl Hp). reflexivity.
  - intros name Hn.
    rewrite (encode_image_path E s (PyStr name) (Path name) content eq_refl Hn). reflexivity.
  - intros v Hv. unfold _encode_image, _as_bytesio. run.
    destruct v; simpl in *; try discriminate; try reflexivity.
    destruct (objects s !! l) as [[]|]; try discriminate; reflexivity.
Qed.

Lemma encode_image_shapes_witness :
  let s := {| objects := [OBytesIO (encode_utf8 "abc") 0]; sent := [] |} in
  let E := Fixture.world 404 201 200 [] in
  fst (_encode_image E (PyBytes (encode_utf8 "abc")) s) = Ok "YWJj"
  /\ fst (_encode_image E (PyRef 0) s) = Ok "YWJj"
  /\ fst (_encode_image E (PyPath Fixture.model_bin) s) = Ok "YWJj"
  /\ fst (_encode_image E (PyStr "/models/model.bin") s) = Ok "YWJj"
  /\ fst (_encode_image E (PyInt 7) s) = Raise (Exception (JStr images_message)).
Proof.
  intros s E.
  destruct (encode_image_shapes E s (encode_utf8 "abc")) as (H1 & H2 & H3 & H4 & H5).
  rewrite H1, (H2 0 (encode_utf8 "abc") 0 eq_refl eq_refl), (H3 Fixture.model_bin eq_refl),
    (H4 "/models/model.bin" eq_refl), (H5 (PyInt 7) eq_refl).
  repeat split; reflexivity.
Defined.

(** C7 as stated fails for a buffer that holds the bytes and was read, or
    written, up to its end: [b.read()] gives what follows the position, here
    nothing, and the encoding is the empty string. *)
Lemma encode_image_buffer_at_end :
  let s := {| objects := [OBytesIO (encode_utf8 "abc") 3]; sent := [] |} in
  let E := Fixture.world 404 201 200 [] in
  fst (_encode_image E (PyBytes (encode_utf8 "abc")) s) = Ok "YWJj"
  /\ fst (_encode_image E (PyRef 0) s) = Ok ""
  /\ fst (_encode_image E (PyRef 0) s) <> fst (_encode_image E (PyBytes (encode_utf8 "abc")) s).
Proof. repeat split. discriminate. Qed.

(** ** chat *)


Lemma ref_okb_spec (h : heap) (v : pyval) : ref_okb h v = true -> ref_ok h v.
Proof. destruct v; simpl; try tauto. apply Nat.ltb_lt. Qed.



Lemma same_object_refl o : same_object o o.
Proof. destruct o; simpl; tauto. Qed.

Lemma same_object_trans o1 o2 o3 : same_object o1 o2 -> same_object o2 o3 -> same_object o1 o3.
Proof.
  destruct o1, o2, o3; simpl; try tauto; try congruence.
  intros [H1 H2] [H3 H4]. split; [|tauto].
  intros k Hk. rewrite H3, H1 by exact Hk. reflexivity.
Qed.

Lemma stable_refl h : stable h h.
Proof. intros l o H. exists o. split; [exact H | apply same_object_refl]. Qed.

Lemma stable_trans h1 h2 h3 : stable h1 h2 -> stable h2 h3 -> stable h1 h3.
Proof.
  intros H12 H23 l o H. destruct (H12 l o H) as (o2 & H2 & S2).
  destruct (H23 l o2 H2) as (o3 & H3 & S3). exists o3. split; [exact H3|].
  eapply same_object_trans; eauto.
Qed.

Lemma stable_alloc h o : stable h (h ++ [o]).
Proof.
  intros l o' H. exists o'. split; [|apply same_object_refl].
  apply lookup_app_l_Some. exact H.
Qed.

Lemma stable_store h l o o' :
  h !! l = Some o -> same_object o o' -> stable h (<[l := o']> h).
Proof.
  intros Hl Hs l' o1 H1. destruct (decide (l = l')) as [<-|Hne].
  - exists o'. split.
    + apply list_lookup_insert_eq. eapply lookup_lt_Some; eauto.
    + congruence.
  - exists o1. split; [|apply same_object_refl].
    rewrite list_lookup_insert_ne by exact Hne. exact H1.
Qed.

Lemma stable_length h h' : stable h h' -> length h <= length h'.
Proof.
  intros H. destruct (decide (length h = 0)) as [->|Hne]; [lia|].
  destruct (lookup_lt_is_Some_2 h (length h - 1)) as [o Ho]; [lia|].
  destruct (H _ _ Ho) as (o' & Ho' & _). apply lookup_lt_Some in Ho'. lia.
Qed.




(** What one image costs: no request, the heap stable, and for a failure the
    exception of [_encode_image] or the error of the file system. *)
Lemma encode_image_frame (E : env) (v : pyval) (s : state) :
  exists res s', _encode_image E v s = (res, s') /\ sent s' = sent s
    /\ stable (objects s) (objects s')
    /\ match res with
       | Ok _ => True
       | Raise e => allowed e
       end.
Proof.
  destruct (image_shape (objects s) v) eqn:Hshape.
  - destruct v; simpl in Hshape; try discriminate.
    + unfold _encode_image, read_bytes. simpl.
      destruct (fs E (Path s0)) as [[b| |]|]; run; do 2 eexists;
        (split; [reflexivity|]); (split; [reflexivity|]);
        (split; [apply stable_refl|]); try exact I; right; eauto.
    + rewrite encode_image_bytes. do 2 eexists. split; [reflexivity|]. simpl.
      split; [reflexivity|]. split; [apply stable_alloc | exact I].
    + unfold _encode_image, read_bytes. simpl.
      destruct (fs E p) as [[b| |]|]; run; do 2 eexists;
        (split; [reflexivity|]); (split; [reflexivity|]);
        (split; [apply stable_refl|]); try exact I; right; eauto.
    + destruct (objects s !! l) as [[| data pos |]|] eqn:Hl; try discriminate.
      rewrite (encode_image_buffer E s l data pos Hl). do 2 eexists.
      split; [reflexivity|]. simpl. split; [reflexivity|].
      split; [|exact I]. eapply stable_store; [exact Hl | reflexivity].
  - exists (Raise (Exception (JStr images_message))), s.
    split; [|split; [reflexivity | split; [apply stable_refl | left; reflexivity]]].
    unfold _encode_image, _as_bytesio. run.
    destruct v; simpl in *; try discriminate; try reflexivity.
    destruct (objects s !! l) as [[]|]; try discriminate; reflexivity.
Qed.

















Lemma py_or_list (msgs : list pyval) (s : state) :
  py_or (PyList msgs) (ret (PyList [])) s = (Ok (PyList msgs), s).
Proof. unfold py_or. run. destruct msgs; reflexivity. Qed.






(** C9 at a failing input: [chat] with one message that carries an image as
    bytes returns the answer of the server, and the dict of the caller has
    then its [images] replaced by the base64 strings; a second call with the
    same message takes such a string for a path and fails. *)
Theorem chat_overwrites_images :
  let E := Fixture.world 404 201 200 ["a"] in
  let s := Fixture.holding [Fixture.picture (PyBytes (encode_utf8 "abc"))] in
  let s' := snd (chat E "llama2" (PyList [PyRef 0]) false "" PyNone s) in
  fst (chat E "llama2" (PyList [PyRef 0]) false "" PyNone s) = Ok (Body (Fixture.token "a"))
  /\ objects s !! 0 = Some (Fixture.picture (PyBytes (encode_utf8 "abc")))
  /\ objects s' !! 0 = Some (Fixture.picture (PyStr "YWJj"))
  /\ fst (chat E "llama2" (PyList [PyRef 0]) false "" PyNone s')
     = Raise (OSError (Path "YWJj")).
Proof. vm_compute. repeat split. Qed.



(** ** The stream decoder *)

Lemma with_generator_twice (s : state) (l : loc) (g g' : generator) :
  with_generator (with_generator s l g) l g' = with_generator s l g'.
Proof. unfold with_generator. simpl. rewrite list_insert_insert_eq. reflexivity. Qed.

Lemma with_generator_id (s : state) (l : loc) (g : generator) :
  objects s !! l = Some (OGenerator g) -> with_generator s l g = s.
Proof.
  intros H. unfold with_generator. rewrite list_insert_id by exact H. destruct s; reflexivity.
Qed.

Lemma with_generator_lookup (s : state) (l : loc) (g : generator) :
  l < length (objects s) -> objects (with_generator s l g) !! l = Some (OGenerator g).
Proof. intros H. simpl. apply list_lookup_insert_eq. exact H. Qed.

(** One turn of the loop, by what the next line decodes to. *)
Lemma resume_spec (E : env) (l : loc) (rest : list string) (s : state) :
  resume E l rest s =
    match rest with
    | [] => (Ok StopIteration, with_generator s l (Closed []))
    | line :: rest' =>
        match json_loads E line with
        | None => (Raise (JSONDecodeError line), with_generator s l (Closed rest'))
        | Some (JObj kvs) =>
            if json_truthy (default JNull (dict_get "error" kvs))
            then (Raise (Exception (default JNull (dict_get "error" kvs))),
                  with_generator s l (Closed rest'))
            else (Ok (Yield (JObj kvs)), with_generator s l (Reading rest'))
        | Some _ => (Raise (AttributeError "object has no attribute 'get'"),
                     with_generator s l (Closed rest'))
        end
    end.
Proof.
  unfold resume, fail, with_generator. run. destruct rest as [|line rest']; [reflexivity|].
  destruct (json_loads E line) as [[]|]; try reflexivity.
  destruct (json_truthy _); reflexivity.
Qed.

Lemma next_reading (E : env) (l : loc) (rest : list string) (s : state) :
  objects s !! l = Some (OGenerator (Reading rest)) -> next E l s = resume E l rest s.
Proof. intros H. unfold next. run. rewrite H. reflexivity. Qed.

Lemma next_unstarted (E : env) (l : loc) (method url : string) (kw : kwargs)
    (req : request) (r : response) (s : state) :
  objects s !! l = Some (OGenerator (Unstarted method url kw)) ->
  build_request (objects s) method url kw = Ok req ->
  server E (sent s) req = Some r ->
  next E l s = resume E l (lines r) (after s [req]).
Proof.
  intros H Hb Hs. unfold next, send. run. rewrite H. simpl. rewrite Hb. simpl.
  rewrite Hs. reflexivity.
Qed.

Lemma consume_S (E : env) (n : nat) (l : loc) (s : state) :
  consume E (S n) l s =
    match next E l s with
    | (Ok (Yield v), s') => let '(vs, o, s'') := consume E n l s' in (v :: vs, o, s'')
    | (Ok StopIteration, s') => ([], Exhausted, s')
    | (Raise e, s') => ([], Failed e, s')
    end.
Proof. reflexivity. Qed.

(** The caller is given the events of the lines it asks for, in order. *)
Lemma consume_events (E : env) (l : loc) (pre : list string) (objs : list json) :
  Forall2 (fun line obj => json_loads E line = Some obj /\ is_event obj = true) pre objs ->
  forall (rest : list string) (n : nat) (s : state),
    objects s !! l = Some (OGenerator (Reading (pre ++ rest))) ->
    consume E (length pre + n) l s =
      let '(vs, o, s') := consume E n l (with_generator s l (Reading rest)) in
      (objs ++ vs, o, s').
Proof.
  induction 1 as [|line obj pre objs [Hd He] _ IH]; intros rest n s Hl.
  - simpl. rewrite with_generator_id by exact Hl.
    destruct (consume E n l s) as [[vs o] s']. reflexivity.
  - change (length (line :: pre) + n) with (S (length pre + n)).
    rewrite consume_S, (next_reading E l _ s Hl), resume_spec.
    change ((line :: pre) ++ rest) with (line :: (pre ++ rest)). cbv iota. rewrite Hd.
    destruct obj; simpl in He; try discriminate.
    apply negb_true_iff in He. rewrite He.
    rewrite (IH rest n (with_generator s l (Reading (pre ++ rest))))
      by (apply with_generator_lookup; eapply lookup_lt_Some; eauto).
    rewrite with_generator_twice.
    destruct (consume E n l _) as [[vs o] s']. reflexivity.
Qed.

Lemma resume_overwrite (E : env) (l : loc) (rest : list string) (s : state) (g : generator) :
  resume E l rest (with_generator s l g) = resume E l rest s.
Proof.
  rewrite !resume_spec. destruct rest as [|line rest']; [now rewrite with_generator_twice|].
  destruct (json_loads E line) as [[]|]; rewrite ?with_generator_twice; reflexivity.
Qed.

(** The first [next] opens the response; from then on the generator reads
    its lines. *)
Lemma consume_unstarted (E : env) (l : loc) (method url : string) (kw : kwargs)
    (req : request) (r : response) (s : state) (n : nat) :
  objects s !! l = Some (OGenerator (Unstarted method url kw)) ->
  build_request (objects s) method url kw = Ok req ->
  server E (sent s) req = Some r ->
  consume E (S n) l s
    = consume E (S n) l (with_generator (after s [req]) l (Reading (lines r))).
Proof.
  intros H Hb Hs. rewrite !consume_S.
  rewrite (next_unstarted E l method url kw req r s H Hb Hs).
  rewrite (next_reading E l (lines r))
    by (apply with_generator_lookup; simpl; eapply lookup_lt_Some; eauto).
  rewrite resume_overwrite. reflexivity.
Qed.

(** C1: the generator of [_stream] sends nothing until it is advanced.  When
    the lines of the response decode to objects without a true [error], the
    caller that iterates is given one object per line, in the order of the
    lines, and the generator is then exhausted.  When the line after [k-1]
    such lines decodes to an object with a true [error], the caller is given
    exactly the [k-1] objects and the iteration then fails with the exception
    that carries that error; the lines after it are left unread in the closed
    response, whatever they hold. *)
Theorem stream_decoder (E : env) (method url : string) (kw : kwargs) (s : state)
    (req : request) (r : response) (pre : list string) (objs : list json) :
  let l := length (objects s) in
  let s0 := {| objects := objects s ++ [OGenerator (Unstarted method url kw)];
               sent := sent s |} in
  build_request (objects s0) method url kw = Ok req ->
  server E (sent s) req = Some r ->
  Forall2 (fun line obj => json_loads E line = Some obj /\ is_event obj = true) pre objs ->
  _stream method url kw s = (Ok l, s0) /\
  length objs = length pre /\
  (forall rest, lines r = pre ++ rest -> pre <> [] ->
     consume E (length pre) l s0
       = (objs, Suspended, with_generator (after s0 [req]) l (Reading rest))) /\
  (forall n, lines r = pre -> length pre < n ->
     consume E n l s0 = (objs, Exhausted, with_generator (after s0 [req]) l (Closed []))) /\
  (forall bad kvs e post n,
     lines r = pre ++ bad :: post ->
     json_loads E bad = Some (JObj kvs) ->
     dict_get "error" kvs = Some e ->
     json_truthy e = true ->
     length pre < n ->
     consume E n l s0
       = (objs, Failed (Exception e), with_generator (after s0 [req]) l (Closed post))).
Proof.
  intros l s0 Hb Hs Hpre.
  assert (Hl : objects s0 !! l = Some (OGenerator (Unstarted method url kw))).
  { simpl. rewrite lookup_app_r by lia. unfold l. rewrite Nat.sub_diag. reflexivity. }
  assert (Hlt : l < length (objects (after s0 [req]))).
  { simpl. rewrite length_app. simpl. lia. }
  assert (Hstart : forall n rest, lines r = pre ++ rest ->
            consume E (S (length pre + n)) l s0
            = let '(vs, o, s') :=
                consume E (S n) l (with_generator (after s0 [req]) l (Reading rest)) in
              (objs ++ vs, o, s')).
  { intros n rest Hr.
    rewrite (consume_unstarted E l method url kw req r s0 _ Hl Hb Hs), Hr.
    replace (S (length pre + n)) with (length pre + S n) by lia.
    rewrite (consume_events E l pre objs Hpre rest (S n))
      by (apply with_generator_lookup; exact Hlt).
    rewrite with_generator_twice. reflexivity. }
  split; [reflexivity|]. split; [symmetry; eapply Forall2_length; eauto|].
  split; [|split].
  - intros rest Hr Hne. destruct pre as [|line pre']; [contradiction|].
    change (length (line :: pre')) with (S (length pre')).
    rewrite (consume_unstarted E l method url kw req r s0 _ Hl Hb Hs), Hr.
    change (S (length pre')) with (length (line :: pre')).
    rewrite <- (Nat.add_0_r (length (line :: pre'))).
    rewrite (consume_events E l (line :: pre') objs Hpre rest 0)
      by (apply with_generator_lookup; exact Hlt).
    rewrite with_generator_twice. simpl. rewrite app_nil_r. reflexivity.
  - intros n Hr Hn. destruct n as [|n]; [lia|].
    replace n with (length pre + (n - length pre)) by lia.
    rewrite (Hstart _ [] (eq_sym (eq_trans (app_nil_r pre) (eq_sym Hr)))).
    rewrite consume_S, (next_reading E l []) by (apply with_generator_lookup; exact Hlt).
    rewrite resume_spec, with_generator_twice, app_nil_r. reflexivity.
  - intros bad kvs e post n Hr Hd He Ht Hn. destruct n as [|n]; [lia|].
    replace n with (length pre + (n - length pre)) by lia.
    rewrite (Hstart _ (bad :: post) Hr).
    rewrite consume_S, (next_reading E l (bad :: post))
      by (apply with_generator_lookup; exact Hlt).
    rewrite resume_spec, Hd, He. simpl. rewrite Ht, with_generator_twice, app_nil_r.
    reflexivity.
Qed.

Lemma stream_decoder_witness :
  let E := Fixture.world 404 201 200 ["a"; "b"; "x"; "c"] in
  let kw := JsonArg [("model", PyStr "llama2")] in
  let s0 := {| objects := [OGenerator (Unstarted "POST" "/api/generate" kw)]; sent := [] |} in
  _stream "POST" "/api/generate" kw Fixture.start = (Ok 0, s0)
  /\ fst (consume E 5 0 s0)
     = ([Fixture.token "a"; Fixture.token "b"], Failed (Exception (JStr "x")))
  /\ objects (snd (consume E 5 0 s0)) !! 0 = Some (OGenerator (Closed ["c"])).
Proof.
  intros E kw s0.
  destruct (stream_decoder E "POST" "/api/generate" kw Fixture.start
              (MkRequest "POST" "/api/generate" (JsonBody (JObj [("model", JStr "llama2")])))
              (MkResponse 200 ["a"; "b"; "x"; "c"]) ["a"; "b"]
              [Fixture.token "a"; Fixture.token "b"] eq_refl eq_refl)
    as (H0 & _ & _ & _ & H).
  - repeat constructor.
  - split; [exact H0|].
    assert (Hc := H "x" [("error", JStr "x")] (JStr "x") ["c"] 5 eq_refl eq_refl eq_refl
                    eq_refl ltac:(simpl; lia)).
    split.
    + exact (f_equal fst Hc).
    + exact (f_equal (fun x => objects (snd x) !! 0) Hc).
Defined.

(** ** The digest of a blob *)

Example sha256_constants :
  SHA256.H0 !! 0 = Some 0x6a09e667%Z /\ SHA256.H0 !! 7 = Some 0x5be0cd19%Z
  /\ SHA256.K !! 0 = Some 0x428a2f98%Z /\ SHA256.K !! 63 = Some 0xc67178f2%Z
  /\ length SHA256.K = 64.
Proof. repeat split. Qed.

Example sha256_abc :
  SHA256.hex (SHA256.hash (encode_utf8 "abc"))
  = "ba7816bf8f01cfea414140de5dae2223b00361a396177a9cb410ff61f20015ad".
Proof. vm_compute. reflexivity. Qed.

Example sha256_empty :
  SHA256.hex (SHA256.hash [])
  = "e3b0c44298fc1c149afbf4c8996fb92427ae41e4649b934ca495991b7852b855".
Proof. vm_compute. reflexivity. Qed.

Example sha256_two_blocks :
  SHA256.hex (SHA256.hash
    (encode_utf8 "abcdbcdecdefdefgefghfghighijhijkijkljklmklmnlmnomnopnopq"))
  = "248d6a61d20638b8e5c026930c3e6039a33ce45964ff2167f6ecedd419db06c1".
Proof. vm_compute. reflexivity. Qed.

Lemma absorb_eq (H : list Z) (data : bytes) :
  SHA256.absorb H data =
    if le_lt_dec 64 (length data)
    then SHA256.absorb (SHA256.compress H (take 64 data)) (drop 64 data)
    else (H, data).
Proof.
  funelim (SHA256.absorb H data); rewrite Heq; reflexivity.
Qed.

Lemma absorb_small (H : list Z) (data : bytes) :
  length data < 64 -> SHA256.absorb H data = (H, data).
Proof. intros Hl. rewrite absorb_eq. destruct (le_lt_dec 64 (length data)); [lia | reflexivity]. Qed.

Lemma absorb_block (H : list Z) (data : bytes) :
  64 <= length data ->
  SHA256.absorb H data = SHA256.absorb (SHA256.compress H (take 64 data)) (drop 64 data).
Proof. intros Hl. rewrite absorb_eq at 1. destruct (le_lt_dec 64 (length data)); [reflexivity | lia]. Qed.

(** Absorbing a message in two parts is absorbing it at once. *)
Lemma absorb_app (a b : bytes) (H : list Z) :
  SHA256.absorb (fst (SHA256.absorb H a)) (snd (SHA256.absorb H a) ++ b)
    = SHA256.absorb H (a ++ b).
Proof.
  remember (length a) as n eqn:Hn. revert a H Hn.
  induction n as [n IH] using lt_wf_ind. intros a H Hn.
  destruct (le_lt_dec 64 (length a)) as [Hl | Hl].
  - rewrite (absorb_block H a Hl).
    rewrite (absorb_block H (a ++ b)) by (rewrite length_app; lia).
    rewrite take_app_le, drop_app_le by lia.
    apply (IH (length (drop 64 a))); [rewrite length_drop; lia | reflexivity].
  - rewrite (absorb_small H a Hl). reflexivity.
Qed.

Lemma fed_new : fed SHA256.new [].
Proof. split; reflexivity. Qed.

Lemma fed_update (st : SHA256.t) (m data : bytes) :
  fed st m -> fed (SHA256.update st data) (m ++ data).
Proof.
  intros [Ha Hc]. unfold SHA256.update.
  pose proof (absorb_app m data SHA256.H0) as Happ. rewrite Ha in Happ. simpl in Happ.
  destruct (SHA256.absorb (SHA256.chain st) (SHA256.pending st ++ data)) as [H rest].
  split; simpl; [congruence | rewrite length_app; lia].
Qed.

(** The loop feeds the hash object what the file still holds. *)
Lemma hash_loop_fed (n : nat) (r : file) (st : SHA256.t) (m : bytes) :
  0 < n -> fed st m -> fed (hash_loop n r st) (m ++ drop (f_pos r) (f_data r)).
Proof.
  intros Hn. revert m. funelim (hash_loop n r st); intros m Hfed.
  - apply take_nil_inv in e'; [|exact Hn]. rewrite e', app_nil_r. exact Hfed.
  - simpl in *. specialize (H Hn _ (fed_update _ _ (b :: chunk) Hfed)).
    rewrite <- app_assoc in H. rewrite <- drop_drop in H.
    rewrite <- e' in H. rewrite take_drop_length in H. rewrite <- e'. exact H.
Qed.

Lemma blocks_small (data : bytes) : length data < 64 -> SHA256.blocks data = [].
Proof. intros H. unfold SHA256.blocks. rewrite Nat.div_small by exact H. reflexivity. Qed.

Lemma blocks_step (data : bytes) :
  64 <= length data ->
  SHA256.blocks data = take 64 data :: SHA256.blocks (drop 64 data).
Proof.
  intros H. unfold SHA256.blocks.
  replace (length data / 64) with (S (length (drop 64 data) / 64)).
  - cbn [seq map]. f_equal.
    rewrite <- seq_shift, map_map. apply map_ext. intros i.
    rewrite drop_drop. f_equal. f_equal. lia.
  - rewrite length_drop.
    replace (length data) with ((length data - 64) + 1 * 64) at 2 by lia.
    rewrite Nat.div_add by lia. lia.
Qed.

(** The chaining value after a message is the fold of [compress] over its
    blocks. *)
Lemma absorb_blocks (data : bytes) (H : list Z) :
  fst (SHA256.absorb H data) = fold_left SHA256.compress (SHA256.blocks data) H.
Proof.
  remember (length data) as n eqn:Hn. revert data H Hn.
  induction n as [n IH] using lt_wf_ind. intros data H Hn.
  destruct (le_lt_dec 64 (length data)) as [Hl | Hl].
  - rewrite (absorb_block H data Hl), (blocks_step data Hl). simpl.
    apply (IH (length (drop 64 data))); [rewrite length_drop; lia | reflexivity].
  - rewrite (absorb_small H data Hl), (blocks_small data Hl). reflexivity.
Qed.

(** A hash object fed [m] gives the digest of [m]. *)
Lemma digest_fed (st : SHA256.t) (m : bytes) :
  fed st m -> SHA256.digest st = SHA256.hash m.
Proof.
  intros [Ha Hc]. unfold SHA256.digest, SHA256.hash. f_equal.
  rewrite <- absorb_blocks, <- (absorb_app m (SHA256.padding (length m)) SHA256.H0), Ha, Hc.
  reflexivity.
Qed.

(** C3: the digest the blob uploader computes for a file is "sha256:"
    followed by the hexadecimal SHA-256 of its bytes, and reading the file in
    chunks of any size [n > 0] (of 32 KiB as the uploader does, of one byte)
    or feeding it to the hash object at once gives that same digest. *)
Theorem blob_digest_sha256 (content : bytes) :
  blob_digest content = "sha256:" +:+ SHA256.hex (SHA256.hash content)
  /\ (forall n, 0 < n ->
        "sha256:" +:+ SHA256.hexdigest (hash_loop n {| f_data := content; f_pos := 0 |} SHA256.new)
        = blob_digest content)
  /\ "sha256:" +:+ SHA256.hexdigest (SHA256.update SHA256.new content) = blob_digest content.
Proof.
  assert (Hloop : forall n, 0 < n ->
            SHA256.hexdigest (hash_loop n {| f_data := content; f_pos := 0 |} SHA256.new)
            = SHA256.hex (SHA256.hash content)).
  { intros n Hn. unfold SHA256.hexdigest. f_equal.
    apply digest_fed.
    exact (hash_loop_fed n {| f_data := content; f_pos := 0 |} SHA256.new [] Hn fed_new). }
  assert (Hb : blob_digest content = "sha256:" +:+ SHA256.hex (SHA256.hash content)).
  { unfold blob_digest, file_digest. rewrite Hloop by apply CHUNK_pos. reflexivity. }
  split; [exact Hb|]. split.
  - intros n Hn. rewrite Hb, Hloop by exact Hn. reflexivity.
  - rewrite Hb. unfold SHA256.hexdigest. do 2 f_equal.
    apply digest_fed. exact (fed_update SHA256.new [] content fed_new).
Qed.

Lemma blob_digest_sha256_witness :
  blob_digest (encode_utf8 "abc")
  = "sha256:ba7816bf8f01cfea414140de5dae2223b00361a396177a9cb410ff61f20015ad"
  /\ "sha256:" +:+ SHA256.hexdigest
        (hash_loop 1 {| f_data := encode_utf8 "abc"; f_pos := 0 |} SHA256.new)
     = blob_digest (encode_utf8 "abc").
Proof.
  destruct (blob_digest_sha256 (encode_utf8 "abc")) as (H1 & H2 & _). split.
  - rewrite H1. vm_compute. reflexivity.
  - apply H2. lia.
Defined.

(** ** The Modelfile parser *)

(** [partition] splits the line and loses nothing. *)
Lemma partition_join (sep : ascii) (line a m b : string) :
  str_partition sep line = (a, m, b) -> line = a +:+ m +:+ b.
Proof.
  revert a m b. induction line as [|c line IH]; simpl; intros a m b.
  - intros [= <- <- <-]. reflexivity.
  - destruct (Ascii.eqb_spec c sep) as [->|Hne].
    + intros [= <- <- <-]. reflexivity.
    + destruct (str_partition sep line) as [[a' m'] b'].
      intros [= <- <- <-]. rewrite (IH a' m' b' eq_refl) at 1. reflexivity.
Qed.

(** A line whose command is neither FROM nor ADAPTER is printed as command,
    space, arguments and a newline, whether or not it had a space and a
    newline of its own. *)
Lemma parse_line_other (E : env) (base : path) (line command m args : string) (s : state) :
  str_partition " " line = (command, m, args) ->
  upper command ∉ ["FROM"; "ADAPTER"] ->
  parse_line E base line s = (Ok (command +:+ " " +:+ args +:+ nl), s).
Proof.
  intros Hp Hc. unfold parse_line. rewrite Hp.
  rewrite bool_decide_eq_false_2 by exact Hc. reflexivity.
Qed.

(** C4 at a failing input: in a Modelfile whose line [FROM ./model.bin] ends
    with a newline, the file exists in the base directory and yet the line is
    not rewritten (and is followed by an empty line); the same line without
    the newline is rewritten to the digest of the file, and a line that
    names no file is printed as it is. *)
Theorem parse_modelfile_newline_in_path :
  let E := Fixture.world 404 201 200 [] in
  path_exists E (joinpath (cwd E) (Path "./model.bin")) = true
  /\ _parse_modelfile E ("FROM ./model.bin" +:+ nl) None Fixture.start
     = (Ok ("FROM ./model.bin" +:+ nl +:+ nl), Fixture.start)
  /\ fst (_parse_modelfile E "FROM ./model.bin" None Fixture.start)
     = Ok ("FROM @" +:+ blob_digest (encode_utf8 "abc") +:+ nl)
  /\ _parse_modelfile E "FROM llama2" None Fixture.start
     = (Ok ("FROM llama2" +:+ nl), Fixture.start).
Proof. vm_compute. repeat split. Qed.

(** C5 at a failing input: two lines that are neither FROM nor ADAPTER come
    out as four lines, each followed by an empty one; a line without a space
    comes out with a space added. *)
Theorem parse_modelfile_adds_lines :
  let E := Fixture.world 404 201 200 [] in
  _parse_modelfile E ("PARAMETER temperature 1" +:+ nl +:+ "SYSTEM hi" +:+ nl) None
    Fixture.start
    = (Ok ("PARAMETER temperature 1" +:+ nl +:+ nl +:+ "SYSTEM hi" +:+ nl +:+ nl),
       Fixture.start)
  /\ length (readlines ("PARAMETER temperature 1" +:+ nl +:+ "SYSTEM hi" +:+ nl)) = 2
  /\ length (readlines ("PARAMETER temperature 1" +:+ nl +:+ nl +:+ "SYSTEM hi" +:+ nl +:+ nl)) = 4
  /\ _parse_modelfile E "TEMPLATE" None Fixture.start
     = (Ok ("TEMPLATE " +:+ nl), Fixture.start).
Proof. vm_compute. repeat split. Qed.

(** ** Modelfiles without local files *)

Lemma string_app_assoc (a b c : string) : (a +:+ b) +:+ c = a +:+ (b +:+ c).
Proof. induction a as [|x a IH]; [reflexivity | exact (f_equal (String x) IH)]. Qed.

Lemma string_app_nil_r (a : string) : a +:+ "" = a.
Proof. induction a as [|x a IH]; [reflexivity | exact (f_equal (String x) IH)]. Qed.

Lemma concat_cons (x : string) (xs : list string) :
  String.concat "" (x :: xs) = x +:+ String.concat "" xs.
Proof. destruct xs; simpl; [now rewrite string_app_nil_r | reflexivity]. Qed.

Lemma partition_separator (sep : ascii) (line a m b : string) :
  str_partition sep line = (a, m, b) ->
  (m = String sep "" /\ line = a +:+ String sep b) \/ (m = "" /\ b = "" /\ a = line).
Proof.
  revert a m b. induction line as [|c line IH]; simpl; intros a m b.
  - intros [= <- <- <-]. right. repeat split.
  - destruct (Ascii.eqb_spec c sep) as [->|Hne].
    + intros [= <- <- <-]. left. split; reflexivity.
    + destruct (str_partition sep line) as [[a' m'] b'].
      intros [= <- <- <-]. destruct (IH a' m' b' eq_refl) as [[-> ->] | (-> & -> & ->)].
      * left. split; reflexivity.
      * right. repeat split.
Qed.

(** A line with a space is printed as it is, followed by a newline; a line
    without one gets a space before that newline. *)
Lemma printed_line_cases (line : string) :
  printed_line line = if has_space line then line +:+ nl else line +:+ " " +:+ nl.
Proof.
  unfold printed_line, has_space.
  destruct (str_partition " " line) as [[a m] b] eqn:Hp. simpl.
  destruct (partition_separator _ _ _ _ _ Hp) as [[-> ->] | (-> & -> & ->)]; simpl.
  - rewrite string_app_assoc. reflexivity.
  - reflexivity.
Qed.

Lemma parse_lines_other (E : env) (base : path) (ls : list string) (out : string) (s : state) :
  forallb other_line ls = true ->
  parse_lines E base ls out s = (Ok (out +:+ String.concat "" (map printed_line ls)), s).
Proof.
  revert out. induction ls as [|line ls IH]; intros out H.
  - simpl. rewrite string_app_nil_r. reflexivity.
  - simpl in H. apply andb_prop in H as [Hl Hls].
    cbn [parse_lines map]. unfold bind at 1.
    destruct (str_partition " " line) as [[command m] args] eqn:Hp.
    rewrite (parse_line_other E base line command m args s Hp).
    + rewrite IH by exact Hls. rewrite concat_cons, string_app_assoc.
      unfold printed_line. rewrite Hp. reflexivity.
    + unfold other_line in Hl. rewrite Hp in Hl. simpl in Hl.
      apply negb_true_iff, bool_decide_eq_false in Hl. exact Hl.
Qed.

(** X16: a Modelfile without FROM and ADAPTER lines is parsed without
    any request or change of state.  Every line comes out followed by a
    newline of [print]: a line that holds a space as it is (its own
    newline included), a line without one with a space added at its
    end. *)
Theorem parse_modelfile_other_lines (E : env) (modelfile : string) (base : option path)
    (s : state) :
  forallb other_line (readlines modelfile) = true ->
  _parse_modelfile E modelfile base s
    = (Ok (String.concat ""
             (map (fun line => if has_space line then line +:+ nl else line +:+ " " +:+ nl)
                  (readlines modelfile))),
       s).
Proof.
  intros H. unfold _parse_modelfile. rewrite parse_lines_other by exact H.
  rewrite (List.map_ext _ _ printed_line_cases). reflexivity.
Qed.

Lemma parse_modelfile_other_lines_witness :
  _parse_modelfile (Fixture.world 404 201 200 [])
    ("PARAMETER temperature 1" +:+ nl +:+ "TEMPLATE") None Fixture.start
  = (Ok ("PARAMETER temperature 1" +:+ nl +:+ nl +:+ "TEMPLATE " +:+ nl), Fixture.start).
Proof.
  exact (parse_modelfile_other_lines (Fixture.world 404 201 200 [])
           ("PARAMETER temperature 1" +:+ nl +:+ "TEMPLATE") None Fixture.start eq_refl).
Defined.

(** ** FROM and ADAPTER lines, and the source of create *)

(** X17: a FROM or ADAPTER line whose argument, resolved against the
    base directory when relative, names nothing on disk is printed with
    its argument kept; when the system answers the lookup of that path
    with an error other than "no such file", the error is raised and
    nothing is sent; when the path names a file whose digest the server
    already holds, the argument becomes [@] and that digest, and the probe
    is the only request. *)
Theorem parse_line_from (E : env) (base : path) (line command m args : string)
    (p0 : path) (s : state) :
  str_partition " " line = (command, m, args) ->
  upper command ∈ ["FROM"; "ADAPTER"] ->
  expanduser E (Path args) s = (Ok p0, s) ->
  let p := if is_absolute p0 then p0 else joinpath base p0 in
  (fs E p = None ->
     parse_line E base line s = (Ok (command +:+ " " +:+ args +:+ nl), s)) /\
  (fs E p = Some Refused ->
     parse_line E base line s = (Raise (OSError p), s)) /\
  (forall content probe,
     fs E p = Some (File content) ->
     server E (sent s) (MkRequest "HEAD" ("/api/blobs/" +:+ blob_digest content) NoBody)
       = Some probe ->
     is_success probe = true ->
     parse_line E base line s
       = (Ok (command +:+ " " +:+ ("@" +:+ blob_digest content) +:+ nl),
          after s [MkRequest "HEAD" ("/api/blobs/" +:+ blob_digest content) NoBody])).
Proof.
  intros Hp Hc He p.
  assert (Hrun : parse_line E base line s
            = (args' <- (found <- exists_ E p ;;
                         if found
                         then digest <- _create_blob E p ;; ret ("@" +:+ digest)
                         else ret args) ;;
               ret (command +:+ " " +:+ args' +:+ nl)) s).
  { unfold parse_line. rewrite Hp. rewrite bool_decide_eq_true_2 by exact Hc.
    unfold bind at 1. unfold bind at 1. rewrite He. reflexivity. }
  split; [|split].
  - intros Hf. rewrite Hrun. unfold exists_, path_exists. rewrite Hf. reflexivity.
  - intros Hf. rewrite Hrun. unfold exists_. rewrite Hf. reflexivity.
  - intros content probe Hf Hs Hok. rewrite Hrun. unfold exists_, path_exists. rewrite Hf.
    unfold bind at 1. unfold bind at 1. unfold ret at 1. cbv iota beta.
    unfold bind at 1.
    rewrite (create_blob_run E p content s Hf). cbv zeta.
    rewrite Hs, Hok. reflexivity.
Qed.

Lemma parse_line_from_witness :
  let refusing := {| fs := fun _ => Some Refused; cwd := Path "/models";
                     gethomedir := fun _ => None; server := fun _ _ => None;
                     json_loads := fun _ => None |} in
  parse_line (Fixture.world 200 201 200 []) (Path "/models") "ADAPTER ./model.bin"
    Fixture.start
  = (Ok ("ADAPTER" +:+ " " +:+ ("@" +:+ blob_digest (encode_utf8 "abc")) +:+ nl),
     after Fixture.start
       [MkRequest "HEAD" ("/api/blobs/" +:+ blob_digest (encode_utf8 "abc")) NoBody])
  /\ parse_line refusing (Path "/models") "FROM model.bin" Fixture.start
     = (Raise (OSError (Path "/models/model.bin")), Fixture.start).
Proof.
  intros refusing.
  assert (Ha : upper "ADAPTER" ∈ ["FROM"; "ADAPTER"]).
  { apply list_elem_of_In. right. left. reflexivity. }
  assert (Hf : upper "FROM" ∈ ["FROM"; "ADAPTER"]).
  { apply list_elem_of_In. left. reflexivity. }
  split.
  - exact (proj2 (proj2 (parse_line_from (Fixture.world 200 201 200 []) (Path "/models")
                           "ADAPTER ./model.bin" "ADAPTER" " " "./model.bin"
                           (Path "./model.bin") Fixture.start eq_refl Ha eq_refl))
             (encode_utf8 "abc") (MkResponse 200 []) eq_refl eq_refl eq_refl).
  - exact (proj1 (proj2 (parse_line_from refusing (Path "/models") "FROM model.bin" "FROM"
                           " " "model.bin" (Path "model.bin") Fixture.start eq_refl Hf
                           eq_refl))
             eq_refl).
Defined.

Lemma joinpath_empty (base : path) : joinpath base (Path "") = base.
Proof.
  unfold joinpath. simpl. rewrite app_nil_r. destruct base; reflexivity.
Qed.

(** X18: a FROM or ADAPTER line without argument resolves to the base
    directory itself; when that is a directory, opening it for the blob
    raises the error of the file system and nothing is sent. *)
Theorem parse_line_without_argument (E : env) (base : path) (line command m : string)
    (s : state) :
  str_partition " " line = (command, m, "") ->
  upper command ∈ ["FROM"; "ADAPTER"] ->
  fs E base = Some Dir ->
  parse_line E base line s = (Raise (OSError base), s).
Proof.
  intros Hp Hc Hd. unfold parse_line. rewrite Hp.
  rewrite bool_decide_eq_true_2 by exact Hc.
  unfold bind at 1. unfold bind at 1.
  change (expanduser E (Path "") s) with (Ok (Path ""), s). cbv iota beta.
  change (is_absolute (Path "")) with false. cbv iota.
  rewrite joinpath_empty. unfold bind at 1. unfold exists_, path_exists. rewrite Hd.
  unfold ret at 1. cbv iota beta.
  unfold bind at 1. unfold _create_blob, create_blob_with, open_rb. rewrite Hd.
  reflexivity.
Qed.

Lemma parse_line_without_argument_witness :
  parse_line (Fixture.world 200 201 200 []) (Path "/models") "FROM" Fixture.start
  = (Raise (OSError (Path "/models")), Fixture.start).
Proof.
  assert (Hc : upper "FROM" ∈ ["FROM"; "ADAPTER"]).
  { apply list_elem_of_In. left. reflexivity. }
  exact (parse_line_without_argument (Fixture.world 200 201 200 []) (Path "/models")
           "FROM" "FROM" "" Fixture.start eq_refl Hc eq_refl).
Defined.



(** ** The life of a generator *)

Lemma result_mapM_error {A B} (P : exn -> Prop) (f : A -> result B) (l : list A) (e : exn) :
  (forall a e', In a l -> f a = Raise e' -> P e') ->
  result_mapM f l = Raise e -> P e.
Proof.
  induction l as [|a l IH]; simpl; intros Hf; [discriminate|].
  destruct (f a) as [b|e0] eqn:Ha; simpl.
  - destruct (result_mapM f l) as [bs|e1] eqn:Hl; simpl; [discriminate|].
    intros [= <-]. apply IH; [|reflexivity]. intros a' e' Hin. apply Hf. now right.
  - intros [= <-]. apply (Hf a e0); [now left | exact Ha].
Qed.

Lemma dumps_error (d : nat) (h : heap) (v : pyval) (e : exn) :
  dumps d h v = Raise e -> is_status_error e = false.
Proof.
  revert v e. induction d as [|d IH]; intros v e; simpl; [intros [= <-]; reflexivity|].
  destruct v; try (intros [= <-]; reflexivity); try discriminate.
  - destruct (result_mapM (dumps d h) l) as [js|e0] eqn:Hm; simpl; [discriminate|].
    intros [= <-]. revert Hm. apply (result_mapM_error (fun e => is_status_error e = false)).
    intros a e' _. apply IH.
  - destruct (h !! l) as [[kvs| |]|]; try (intros [= <-]; reflexivity).
    destruct (result_mapM _ kvs) as [js|e0] eqn:Hm; simpl; [discriminate|].
    intros [= <-]. revert Hm. apply (result_mapM_error (fun e => is_status_error e = false)).
    intros a e' _. destruct (dumps d h (snd a)) as [j|e1] eqn:Hd; simpl; [discriminate|].
    intros [= <-]. eapply IH; eauto.
Qed.

Lemma build_request_error (h : heap) (method url : string) (kw : kwargs) (e : exn) :
  build_request h method url kw = Raise e -> is_status_error e = false.
Proof.
  unfold build_request. destruct kw as [|fields|chunks]; try discriminate.
  destruct (result_mapM _ fields) as [js|e0] eqn:Hm; simpl; [discriminate|].
  intros [= <-]. revert Hm. apply (result_mapM_error (fun e => is_status_error e = false)).
  intros a e' _. destruct (dumps recursion_limit h (snd a)) as [j|e1] eqn:Hd; [discriminate|].
  simpl. intros [= <-]. eapply dumps_error; eauto.
Qed.

Lemma resume_error (E : env) (l : loc) (rest : list string) (s s' : state) (e : exn) :
  resume E l rest s = (Raise e, s') -> is_status_error e = false.
Proof.
  rewrite resume_spec. destruct rest as [|line rest']; [discriminate|].
  destruct (json_loads E line) as [[]|]; try (intros [= <- _]; reflexivity).
  destruct (json_truthy _); [intros [= <- _]; reflexivity | discriminate].
Qed.

(** The first [next] on a generator not yet started, by cases. *)
Lemma next_start (E : env) (l : loc) (method url : string) (kw : kwargs) (s : state) :
  objects s !! l = Some (OGenerator (Unstarted method url kw)) ->
  next E l s =
    match build_request (objects s) method url kw with
    | Raise e => (Raise e, with_generator s l (Closed []))
    | Ok req =>
        match server E (sent s) req with
        | None => (Raise (TransportError req), with_generator (after s [req]) l (Closed []))
        | Some r => resume E l (lines r) (after s [req])
        end
    end.
Proof.
  intros H. unfold next, send, fail, with_generator, after. run. rewrite H. simpl.
  destruct (build_request (objects s) method url kw) as [req|e]; simpl; [|reflexivity].
  destruct (server E (sent s) req); reflexivity.
Qed.

Lemma next_closed (E : env) (l : loc) (unread : list string) (s : state) :
  objects s !! l = Some (OGenerator (Closed unread)) -> next E l s = (Ok StopIteration, s).
Proof. intros H. unfold next. run. rewrite H. reflexivity. Qed.

Lemma next_error (E : env) (l : loc) (s s' : state) (e : exn) :
  next E l s = (Raise e, s') -> is_status_error e = false.
Proof.
  destruct (objects s !! l) as [[kvs|data pos|[method url kw|rest|unread]]|] eqn:Hl.
  - unfold next. run. rewrite Hl. intros [= <- _]. reflexivity.
  - unfold next. run. rewrite Hl. intros [= <- _]. reflexivity.
  - rewrite (next_start E l method url kw s Hl).
    destruct (build_request (objects s) method url kw) as [req|e0] eqn:Hb.
    + destruct (server E (sent s) req) as [r|]; [apply resume_error|].
      intros [= <- _]. reflexivity.
    + intros [= <- _]. eapply build_request_error; eauto.
  - rewrite (next_reading E l rest s Hl). apply resume_error.
  - rewrite (next_closed E l unread s Hl). discriminate.
  - unfold next. run. rewrite Hl. intros [= <- _]. reflexivity.
Qed.

(** X3: iterating a stream never fails with the error of a response
    status: [_stream] does not look at the status of the response it
    reads. *)
Theorem stream_never_status_error (E : env) (n : nat) (l : loc) (s s' : state)
    (vs : list json) (e : exn) :
  consume E n l s = (vs, Failed e, s') -> is_status_error e = false.
Proof.
  revert s vs. induction n as [|n IH]; intros s vs; [discriminate|].
  rewrite consume_S. destruct (next E l s) as [[[v|]|e0] s1] eqn:Hn.
  - destruct (consume E n l s1) as [[vs1 o1] s2] eqn:Hc. intros [= _ -> ->].
    eapply IH; eauto.
  - discriminate.
  - intros [= _ <- _]. eapply next_error; eauto.
Qed.

Lemma stream_never_status_error_witness :
  let E := Fixture.world 404 201 500 ["a"; "x"] in
  let kw := JsonArg [("model", PyStr "llama2")] in
  let s0 := {| objects := [OGenerator (Unstarted "POST" "/api/generate" kw)]; sent := [] |} in
  fst (consume E 5 0 s0) = ([Fixture.token "a"], Failed (Exception (JStr "x")))
  /\ is_status_error (Exception (JStr "x")) = false.
Proof.
  intros E kw s0.
  assert (H : consume E 5 0 s0
              = ([Fixture.token "a"], Failed (Exception (JStr "x")), snd (consume E 5 0 s0)))
    by (vm_compute; reflexivity).
  split; [rewrite H; reflexivity|].
  exact (stream_never_status_error E 5 0 s0 _ _ _ H).
Defined.

(** What one [next] does to a generator. *)
Lemma next_generator (E : env) (l : loc) (g : generator) (s : state) :
  objects s !! l = Some (OGenerator g) ->
  exists g', objects (snd (next E l s)) !! l = Some (OGenerator g')
    /\ started g' = true
    /\ (match fst (next E l s) with Ok (Yield _) => True | _ => exists u, g' = Closed u end)
    /\ sent (snd (next E l s))
       = sent s ++ match g with
                   | Unstarted method url kw =>
                       match build_request (objects s) method url kw with
                       | Ok req => [req]
                       | Raise _ => []
                       end
                   | _ => []
                   end.
Proof.
  intros Hl. pose proof (lookup_lt_Some _ _ _ Hl) as Hlt.
  assert (Hres : forall rest s0, l < length (objects s0) ->
            exists g', objects (snd (resume E l rest s0)) !! l = Some (OGenerator g')
              /\ started g' = true
              /\ (match fst (resume E l rest s0) with
                  | Ok (Yield _) => True | _ => exists u, g' = Closed u end)
              /\ sent (snd (resume E l rest s0)) = sent s0).
  { intros rest s0 Hlt0. rewrite resume_spec. destruct rest as [|line rest'].
    - exists (Closed []). simpl. rewrite list_lookup_insert_eq by exact Hlt0. eauto.
    - destruct (json_loads E line) as [[| | | | | |kvs]|];
        try (exists (Closed rest'); simpl; rewrite list_lookup_insert_eq by exact Hlt0;
             now eauto).
      destruct (json_truthy _).
      + exists (Closed rest'). simpl. rewrite list_lookup_insert_eq by exact Hlt0. eauto.
      + exists (Reading rest'). simpl. rewrite list_lookup_insert_eq by exact Hlt0. eauto. }
  destruct g as [method url kw|rest|unread].
  - rewrite (next_start E l method url kw s Hl).
    destruct (build_request (objects s) method url kw) as [req|e].
    + destruct (server E (sent s) req) as [r|].
      * destruct (Hres (lines r) (after s [req]) Hlt) as (g' & H1 & H2 & H3 & H4).
        exists g'. rewrite H4. auto.
      * exists (Closed []). simpl. rewrite list_lookup_insert_eq by exact Hlt. eauto.
    + exists (Closed []). simpl. rewrite list_lookup_insert_eq by exact Hlt.
      rewrite app_nil_r. eauto.
  - rewrite (next_reading E l rest s Hl).
    destruct (Hres rest s Hlt) as (g' & H1 & H2 & H3 & H4).
    exists g'. rewrite H4, app_nil_r. auto.
  - rewrite (next_closed E l unread s Hl). exists (Closed unread). simpl.
    rewrite app_nil_r. eauto.
Qed.

(** X4: however many items the caller asks of a generator, the requests
    issued are the one of its first [next], when the arguments serialize;
    a generator that was started or closed issues none, nor does one that
    is never advanced. *)
Theorem stream_single_request (E : env) (n : nat) (l : loc) (g : generator) (s : state) :
  objects s !! l = Some (OGenerator g) ->
  sent (snd (consume E n l s))
    = sent s ++ match g, n with
                | Unstarted method url kw, S _ =>
                    match build_request (objects s) method url kw with
                    | Ok req => [req]
                    | Raise _ => []
                    end
                | _, _ => []
                end.
Proof.
  assert (Hs : forall n s g, objects s !! l = Some (OGenerator g) -> started g = true ->
            sent (snd (consume E n l s)) = sent s).
  { clear. induction n as [|n IH]; intros s g Hl Hg; [reflexivity|].
    rewrite consume_S. destruct (next_generator E l g s Hl) as (g' & H1 & H2 & _ & H4).
    destruct g; [discriminate| |]; rewrite app_nil_r in H4;
      destruct (next E l s) as [[[v|]|e] s1]; simpl in *; try exact H4;
      specialize (IH s1 g' H1 H2); destruct (consume E n l s1) as [[vs o] s2];
      simpl in *; congruence. }
  intros Hl. destruct n as [|n].
  - simpl. destruct g; now rewrite app_nil_r.
  - destruct (started g) eqn:Hg.
    + rewrite (Hs (S n) s g Hl Hg). destruct g; [discriminate| |]; now rewrite app_nil_r.
    + destruct g as [method url kw| |]; try discriminate.
      rewrite consume_S. destruct (next_generator E l _ s Hl) as (g' & H1 & H2 & _ & H4).
      destruct (next E l s) as [[[v|]|e] s1]; simpl in *; try exact H4.
      specialize (Hs n s1 g' H1 H2). destruct (consume E n l s1) as [[vs o] s2].
      simpl in *. congruence.
Qed.

Lemma stream_single_request_witness :
  let E := Fixture.world 404 201 200 ["a"; "b"; "c"] in
  let kw := JsonArg [("model", PyStr "llama2")] in
  let s0 := {| objects := [OGenerator (Unstarted "POST" "/api/generate" kw)]; sent := [] |} in
  sent (snd (consume E 3 0 s0))
    = sent s0 ++ match build_request (objects s0) "POST" "/api/generate" kw with
                 | Ok req => [req]
                 | Raise _ => []
                 end.
Proof.
  intros E kw s0.
  exact (stream_single_request E 3 0 (Unstarted "POST" "/api/generate" kw) s0 eq_refl).
Defined.

(** X5: once the iteration of a generator has ended, by exhaustion or by
    an exception, every further [next] stops at once: nothing more is
    yielded and the state no longer changes. *)
Theorem stream_not_restartable (E : env) (n : nat) (l : loc) (g : generator) (s s' : state)
    (vs : list json) (o : outcome) :
  objects s !! l = Some (OGenerator g) ->
  consume E n l s = (vs, o, s') ->
  finished o = true ->
  forall m, consume E (S m) l s' = ([], Exhausted, s').
Proof.
  intros Hl Hc Hf.
  assert (Hcl : exists u, objects s' !! l = Some (OGenerator (Closed u))).
  { revert s g vs Hl Hc. induction n as [|n IH]; intros s g vs Hl.
    - intros [= _ <- _]. discriminate.
    - rewrite consume_S. destruct (next_generator E l g s Hl) as (g' & H1 & _ & H3 & _).
      destruct (next E l s) as [[[v|]|e] s1]; simpl in *.
      + destruct (consume E n l s1) as [[vs1 o1] s2] eqn:Hc1. intros [= _ -> ->].
        eapply IH; eauto.
      + intros [= _ _ <-]. destruct H3 as [u ->]. eauto.
      + intros [= _ _ <-]. destruct H3 as [u ->]. eauto. }
  destruct Hcl as [u Hu]. intros m. rewrite consume_S, (next_closed E l u s' Hu). reflexivity.
Qed.

Lemma stream_not_restartable_witness :
  let E := Fixture.world 404 201 200 ["a"; "x"; "c"] in
  let kw := JsonArg [("model", PyStr "llama2")] in
  let s0 := {| objects := [OGenerator (Unstarted "POST" "/api/generate" kw)]; sent := [] |} in
  fst (consume E 2 0 s0) = ([Fixture.token "a"], Failed (Exception (JStr "x")))
  /\ consume E 3 0 (snd (consume E 2 0 s0)) = ([], Exhausted, snd (consume E 2 0 s0)).
Proof.
  intros E kw s0.
  assert (H : consume E 2 0 s0
              = ([Fixture.token "a"], Failed (Exception (JStr "x")), snd (consume E 2 0 s0)))
    by (vm_compute; reflexivity).
  split; [rewrite H; reflexivity|].
  exact (stream_not_restartable E 2 0 _ s0 _ _ _ eq_refl H eq_refl 2).
Defined.

(** X6: when the line after the events [pre] is not JSON the iteration
    fails there with the error of the decoder; when it decodes to a value
    that is not an object it fails with the attribute error of [.get].
    Either way the caller has been given the events before it and the
    lines after it stay unread in the closed response. *)
Theorem stream_decode_failure (E : env) (l : loc) (method url : string) (kw : kwargs)
    (s : state) (req : request) (r : response) (pre : list string) (objs : list json)
    (bad : string) (post : list string) (n : nat) :
  objects s !! l = Some (OGenerator (Unstarted method url kw)) ->
  build_request (objects s) method url kw = Ok req ->
  server E (sent s) req = Some r ->
  Forall2 (fun line obj => json_loads E line = Some obj /\ is_event obj = true) pre objs ->
  lines r = pre ++ bad :: post ->
  length pre < n ->
  (json_loads E bad = None ->
     consume E n l s
       = (objs, Failed (JSONDecodeError bad),
          with_generator (after s [req]) l (Closed post))) /\
  (forall j, json_loads E bad = Some j -> (forall kvs, j <> JObj kvs) ->
     consume E n l s
       = (objs, Failed (AttributeError "object has no attribute 'get'"),
          with_generator (after s [req]) l (Closed post))).
Proof.
  intros Hl Hb Hs Hpre Hr Hn.
  assert (Hlt : l < length (objects (after s [req]))).
  { simpl. eapply lookup_lt_Some; eauto. }
  assert (Hrun : consume E n l s
            = let '(vs, o, s') :=
                consume E (S (n - S (length pre))) l
                  (with_generator (after s [req]) l (Reading (bad :: post))) in
              (objs ++ vs, o, s')).
  { destruct n as [|n]; [lia|].
    rewrite (consume_unstarted E l method url kw req r s _ Hl Hb Hs), Hr.
    replace (S n) with (length pre + S (S n - S (length pre))) at 1 by lia.
    rewrite (consume_events E l pre objs Hpre (bad :: post) (S (S n - S (length pre))))
      by (apply with_generator_lookup; exact Hlt).
    rewrite with_generator_twice. reflexivity. }
  rewrite Hrun, consume_S.
  rewrite (next_reading E l (bad :: post)) by (apply with_generator_lookup; exact Hlt).
  rewrite resume_spec, with_generator_twice. split.
  - intros ->. rewrite app_nil_r. reflexivity.
  - intros j -> Hj. destruct j; try (rewrite app_nil_r; reflexivity).
    exfalso. eapply Hj. reflexivity.
Qed.

Lemma stream_decode_failure_witness :
  let E := Fixture.world 404 201 200 ["a"; "[]"; "c"] in
  let kw := JsonArg [("model", PyStr "llama2")] in
  let s0 := {| objects := [OGenerator (Unstarted "POST" "/api/generate" kw)]; sent := [] |} in
  let req := MkRequest "POST" "/api/generate" (JsonBody (JObj [("model", JStr "llama2")])) in
  consume E 4 0 s0
    = ([Fixture.token "a"], Failed (AttributeError "object has no attribute 'get'"),
       with_generator (after s0 [req]) 0 (Closed ["c"])).
Proof.
  intros E kw s0 req.
  refine (proj2 (stream_decode_failure E 0 "POST" "/api/generate" kw s0 req
                   (MkResponse 200 ["a"; "[]"; "c"]) ["a"] [Fixture.token "a"] "[]" ["c"] 4
                   eq_refl _ eq_refl _ eq_refl _) (JArr []) eq_refl _).
  - vm_compute. reflexivity.
  - repeat constructor.
  - simpl. lia.
  - discriminate.
Defined.

(** ** The base URL, buffered calls and list *)

(** X1: the base URL the client is built with.  An argument that is not
    empty is used as it is; without one (None or the empty string) the
    value of OLLAMA_HOST is used when the variable is set, and the local
    default otherwise.  The result is empty exactly when no argument is
    given and OLLAMA_HOST is set to the empty string. *)
Theorem base_url_resolution (arg : option string) (environ : string -> option string) :
  (forall u, arg = Some u -> u <> "" -> base_url arg environ = u) /\
  (forall v, arg = None \/ arg = Some "" -> environ "OLLAMA_HOST" = Some v ->
     base_url arg environ = v) /\
  (arg = None \/ arg = Some "" -> environ "OLLAMA_HOST" = None ->
     base_url arg environ = default_host) /\
  (base_url arg environ = ""
   <-> (arg = None \/ arg = Some "") /\ environ "OLLAMA_HOST" = Some "").
Proof.
  unfold base_url, getenv. split; [|split; [|split; [|split]]].
  - intros u -> Hu. destruct u; [contradiction | reflexivity].
  - intros v [-> | ->] ->; reflexivity.
  - intros [-> | ->] ->; reflexivity.
  - intros H. destruct arg as [[|c u]|]; simpl in H; try discriminate;
      destruct (environ "OLLAMA_HOST") as [v|]; try discriminate; subst; auto.
  - intros [[-> | ->] ->]; reflexivity.
Qed.

Lemma base_url_resolution_witness :
  base_url (Some "") (fun _ => Some "") = ""
  /\ base_url (Some "") (fun _ => None) = default_host
  /\ base_url (Some "http://example.com") (fun _ => Some "") = "http://example.com".
Proof.
  split; [|split].
  - exact (proj2 (proj2 (proj2 (proj2 (base_url_resolution (Some "") (fun _ => Some "")))))
             (conj (or_intror eq_refl) eq_refl)).
  - exact (proj1 (proj2 (proj2 (base_url_resolution (Some "") (fun _ => None))))
             (or_intror eq_refl) eq_refl).
  - exact (proj1 (base_url_resolution (Some "http://example.com") (fun _ => Some ""))
             "http://example.com" eq_refl ltac:(discriminate)).
Defined.

(** A call that does not stream, by what the arguments serialize to and
    what the server answers. *)
Lemma request_stream_run (E : env) (method url : string) (kw : kwargs) (s : state) :
  _request_stream E method url kw false s =
    match build_request (objects s) method url kw with
    | Raise e => (Raise e, s)
    | Ok req =>
        match server E (sent s) req with
        | None => (Raise (TransportError req), after s [req])
        | Some r =>
            (if is_success r then
               match json_loads E (text r) with
               | Some j => Ok (Body j)
               | None => Raise (JSONDecodeError (text r))
               end
             else Raise (HTTPStatusError r),
             after s [req])
        end
    end.
Proof.
  unfold _request_stream, _request, send, raise_for_status, response_json, after. run.
  destruct (build_request (objects s) method url kw) as [req|e]; simpl; [|reflexivity].
  destruct (server E (sent s) req) as [r|]; [|reflexivity].
  destruct (is_success r); [|reflexivity].
  destruct (json_loads E (text r)); reflexivity.
Qed.

(** X2: a call that does not stream leaves the objects of the caller alone
    and issues at most one request; when it fails with nothing sent the
    failure is that of the serialization of the arguments; a result is
    returned only as the decoded body of a response with a 2xx status. *)
Theorem request_stream_buffered (E : env) (method url : string) (kw : kwargs)
    (s s' : state) (res : result reply) :
  _request_stream E method url kw false s = (res, s') ->
  objects s' = objects s
  /\ (sent s' = sent s
      \/ exists req, build_request (objects s) method url kw = Ok req
                     /\ sent s' = sent s ++ [req])
  /\ (forall e, res = Raise e -> sent s' = sent s ->
        build_request (objects s) method url kw = Raise e)
  /\ (forall v, res = Ok v ->
        exists req r j,
          v = Body j /\ build_request (objects s) method url kw = Ok req
          /\ server E (sent s) req = Some r /\ is_success r = true
          /\ json_loads E (text r) = Some j /\ sent s' = sent s ++ [req]).
Proof.
  rewrite request_stream_run.
  destruct (build_request (objects s) method url kw) as [req|e0] eqn:Hb.
  - assert (Hne : sent s ++ [req] <> sent s).
    { intros H. apply (f_equal length) in H. rewrite length_app in H. simpl in H. lia. }
    destruct (server E (sent s) req) as [r|] eqn:Hs.
    + destruct (is_success r) eqn:Hok; [destruct (json_loads E (text r)) as [j|] eqn:Hj|];
        intros [= <- <-]; (split; [reflexivity|]); (split; [right; eauto|]);
        (split; [intros e _ H; contradiction|]); intros v [= <-].
      exists req, r, j. repeat split; assumption.
    + intros [= <- <-]. split; [reflexivity|]. split; [right; eauto|].
      split; [intros e _ H; contradiction | discriminate].
  - intros [= <- <-]. split; [reflexivity|]. split; [left; reflexivity|].
    split; [intros e [= <-] _; reflexivity | discriminate].
Qed.

Lemma request_stream_buffered_witness :
  let E := Fixture.world 404 201 500 ["x"] in
  let req := MkRequest "POST" "/api/pull"
    (JsonBody (JObj [("name", JStr "llama2"); ("insecure", JBool false);
                     ("stream", JBool false)])) in
  pull E "llama2" false false Fixture.start
    = (Raise (HTTPStatusError (MkResponse 500 ["x"])), after Fixture.start [req])
  /\ objects (after Fixture.start [req]) = objects Fixture.start.
Proof.
  intros E req.
  assert (H : pull E "llama2" false false Fixture.start
              = (Raise (HTTPStatusError (MkResponse 500 ["x"])), after Fixture.start [req]))
    by reflexivity.
  split; [exact H|].
  exact (proj1 (request_stream_buffered E "POST" "/api/pull" _ Fixture.start _ _ H)).
Defined.

(** X12: [list] on a 2xx answer gives the value of [models] of the decoded
    object, whatever it is, and an empty list when the key is missing; a
    body that is not an object raises the attribute error of [.get]. *)
Theorem list_models_result (E : env) (s : state) (r : response) (j : json) :
  server E (sent s) (MkRequest "GET" "/api/tags" NoBody) = Some r ->
  is_success r = true ->
  json_loads E (text r) = Some j ->
  list_models E s
    = (match j with
       | JObj kvs =>
           match dict_get "models" kvs with
           | Some v => Ok v
           | None => Ok (JArr [])
           end
       | _ => Raise (AttributeError "object has no attribute 'get'")
       end,
       after s [MkRequest "GET" "/api/tags" NoBody]).
Proof.
  intros Hs Hok Hj. unfold list_models. unfold bind at 1.
  rewrite (request_outcome E "GET" "/api/tags" NoArgs _ r s eq_refl Hs), Hok.
  unfold bind at 1, response_json. rewrite Hj. unfold ret at 1.
  destruct j as [| | | | | |kvs]; try reflexivity.
  destruct (dict_get "models" kvs); reflexivity.
Qed.

Lemma list_models_result_witness :
  list_models (Fixture.world 404 201 200 ["[]"]) Fixture.start
  = (Raise (AttributeError "object has no attribute 'get'"),
     after Fixture.start [MkRequest "GET" "/api/tags" NoBody]).
Proof.
  exact (list_models_result (Fixture.world 404 201 200 ["[]"]) Fixture.start
           (MkResponse 200 ["[]"]) (JArr []) eq_refl eq_refl eq_refl).
Defined.

(** ** What generate and chat put on the wire *)

Lemma mapM_encode_bytes (E : env) (bs : list bytes) (s : state) :
  mapM (_encode_image E) (map PyBytes bs) s
    = (Ok (map b64encode bs),
       {| objects := objects s ++ map (fun b => OBytesIO b (length b)) bs;
          sent := sent s |}).
Proof.
  revert s. induction bs as [|b bs IH]; intros s.
  - simpl. unfold ret. rewrite app_nil_r. destruct s; reflexivity.
  - simpl map. cbn [mapM]. unfold bind at 1. rewrite encode_image_bytes.
    unfold bind at 1. rewrite IH. unfold ret. simpl. rewrite <- app_assoc. reflexivity.
Qed.

Lemma dumps_strings (d : nat) (h : heap) (xs : list string) :
  dumps (S (S d)) h (PyList (map PyStr xs)) = Ok (JArr (map JStr xs)).
Proof.
  change (dumps (S (S d)) h (PyList (map PyStr xs)))
    with (result_bind (result_mapM (dumps (S d) h) (map PyStr xs)) (fun js => Ok (JArr js))).
  assert (H : result_mapM (dumps (S d) h) (map PyStr xs) = Ok (map JStr xs)).
  { induction xs as [|x xs IH]; [reflexivity|].
    cbn [map result_mapM]. rewrite IH. reflexivity. }
  rewrite H. reflexivity.
Qed.

Lemma recursion_limit_S : recursion_limit = S (S 998).
Proof. reflexivity. Qed.

Lemma dumps_str (d : nat) (h : heap) (x : string) : dumps (S d) h (PyStr x) = Ok (JStr x).
Proof. reflexivity. Qed.

Lemma dumps_bool (d : nat) (h : heap) (b : bool) : dumps (S d) h (PyBool b) = Ok (JBool b).
Proof. reflexivity. Qed.

Lemma dumps_none (d : nat) (h : heap) : dumps (S d) h PyNone = Ok JNull.
Proof. reflexivity. Qed.

Lemma dumps_empty_list (d : nat) (h : heap) : dumps (S d) h (PyList []) = Ok (JArr []).
Proof. reflexivity. Qed.

Lemma dumps_empty_dict (d : nat) (h : heap) (l : loc) :
  h !! l = Some (ODict []) -> dumps (S d) h (PyRef l) = Ok (JObj []).
Proof. intros H. change (dumps (S d) h (PyRef l)) with
  (match h !! l with
   | Some (ODict kvs) =>
       result_bind
         (result_mapM (fun kv => result_bind (dumps d h (snd kv))
                                   (fun j => Ok (fst kv, j))) kvs)
         (fun fields => Ok (JObj fields))
   | _ => Raise (TypeError "Object is not JSON serializable")
   end). rewrite H. reflexivity. Qed.

(** X7: [generate] without context and options and with images given as
    bytes sends one POST to /api/generate whose body holds the fields in
    the order of the source: an empty list for the context, the images in
    base64 in their order, an empty object for the options.  The objects
    of the caller are kept; the buffers of the images and the dict of the
    options come after them. *)
Theorem generate_payload (E : env) (model prompt system template : string) (raw : bool)
    (format : string) (bs : list bytes) (s : state) (r : response) :
  let req := MkRequest "POST" "/api/generate"
    (JsonBody (JObj [("model", JStr model); ("prompt", JStr prompt);
                     ("system", JStr system); ("template", JStr template);
                     ("context", JArr []); ("stream", JBool false); ("raw", JBool raw);
                     ("images", JArr (map (fun b => JStr (b64encode b)) bs));
                     ("format", JStr format); ("options", JObj [])])) in
  is_empty model = false ->
  server E (sent s) req = Some r ->
  generate E model prompt system template PyNone false raw format
    (PyList (map PyBytes bs)) PyNone s
  = (if is_success r then
       match json_loads E (text r) with
       | Some j => Ok (Body j)
       | None => Raise (JSONDecodeError (text r))
       end
     else Raise (HTTPStatusError r),
     {| objects := objects s ++ map (fun b => OBytesIO b (length b)) bs ++ [ODict []];
        sent := sent s ++ [req] |}).
Proof.
  intros req Hm Hs. unfold generate. rewrite Hm.
  unfold bind at 1. change (py_or PyNone (ret (PyList [])) s) with (Ok (PyList []), s).
  cbv iota beta. unfold bind at 1. rewrite py_or_list. cbv iota beta.
  unfold bind at 1. unfold encode_images. unfold bind at 1, get_heap.
  unfold bind at 1, lift. cbn [py_iter]. unfold bind at 1. rewrite mapM_encode_bytes.
  unfold ret at 1. cbv iota beta.
  unfold bind at 1. unfold py_or at 1. unfold bind at 1, get_heap. cbn [truthy].
  unfold bind at 1, alloc at 1. unfold ret at 1. cbv iota beta. cbn [objects sent].
  set (h := (objects s ++ map (fun b => OBytesIO b (length b)) bs) ++ [ODict []]).
  set (s1 := {| objects := h; sent := sent s |}).
  assert (Hb : build_request (objects s1) "POST" "/api/generate"
            (JsonArg [("model", PyStr model); ("prompt", PyStr prompt);
                      ("system", PyStr system); ("template", PyStr template);
                      ("context", PyList []); ("stream", PyBool false);
                      ("raw", PyBool raw); ("images", PyList (map PyStr (map b64encode bs)));
                      ("format", PyStr format);
                      ("options", PyRef (length (objects s
                                           ++ map (fun b => OBytesIO b (length b)) bs)))])
            = Ok req).
  { assert (Hl : h !! length (objects s ++ map (fun b => OBytesIO b (length b)) bs)
                 = Some (ODict [])).
    { unfold h. rewrite lookup_app_r by lia. rewrite Nat.sub_diag. reflexivity. }
    unfold build_request. rewrite recursion_limit_S. cbn [result_mapM fst snd objects].
    rewrite dumps_strings, !dumps_str, !dumps_bool, dumps_empty_list.
    rewrite (dumps_empty_dict _ _ _ Hl). cbn [result_bind]. rewrite map_map. reflexivity. }
  rewrite request_stream_run, Hb. unfold after, s1. cbn [objects sent]. rewrite Hs.
  unfold h. rewrite <- app_assoc. reflexivity.
Qed.

Lemma generate_payload_witness :
  generate (Fixture.world 404 201 200 ["a"]) "llama2" "hi" "" "" PyNone false false ""
    (PyList (map PyBytes [encode_utf8 "abc"])) PyNone Fixture.start
  = (Ok (Body (Fixture.token "a")),
     {| objects := [OBytesIO (encode_utf8 "abc") 3; ODict []];
        sent := [MkRequest "POST" "/api/generate"
                   (JsonBody (JObj [("model", JStr "llama2"); ("prompt", JStr "hi");
                                    ("system", JStr ""); ("template", JStr "");
                                    ("context", JArr []); ("stream", JBool false);
                                    ("raw", JBool false); ("images", JArr [JStr "YWJj"]);
                                    ("format", JStr ""); ("options", JObj [])]))] |}).
Proof.
  exact (generate_payload (Fixture.world 404 201 200 ["a"]) "llama2" "hi" "" "" false ""
           [encode_utf8 "abc"] Fixture.start (MkResponse 200 ["a"]) eq_refl eq_refl).
Defined.

Lemma b64encode_nil : b64encode [] = "".
Proof. reflexivity. Qed.

(** X9: the same buffer given for two images is read to its end by the
    first: the second image is encoded as the empty string. *)
Theorem encode_images_same_buffer (E : env) (s : state) (l : loc) (data : bytes) (pos : nat) :
  objects s !! l = Some (OBytesIO data pos) ->
  encode_images E (PyList [PyRef l; PyRef l]) s
    = (Ok (PyList [PyStr (b64encode (drop pos data)); PyStr ""]),
       {| objects := <[l := OBytesIO data (Nat.max pos (length data))]> (objects s);
          sent := sent s |}).
Proof.
  intros Hl. pose proof (lookup_lt_Some _ _ _ Hl) as Hlt.
  unfold encode_images. unfold bind at 1, get_heap. unfold bind at 1, lift. cbn [py_iter].
  unfold bind at 1. cbn [mapM]. unfold bind at 1.
  rewrite (encode_image_buffer E s l data pos Hl). unfold bind at 1. unfold bind at 1.
  rewrite (encode_image_buffer E _ l data (Nat.max pos (length data)))
    by (cbn [objects]; apply list_lookup_insert_eq; exact Hlt).
  cbn [objects sent]. rewrite list_insert_insert_eq.
  rewrite drop_ge by lia. rewrite b64encode_nil.
  replace (Nat.max (Nat.max pos (length data)) (length data))
    with (Nat.max pos (length data)) by lia.
  reflexivity.
Qed.

Lemma encode_images_same_buffer_witness :
  encode_images (Fixture.world 404 201 200 []) (PyList [PyRef 0; PyRef 0])
    (Fixture.holding [OBytesIO (encode_utf8 "abc") 0])
  = (Ok (PyList [PyStr (b64encode (drop 0 (encode_utf8 "abc"))); PyStr ""]),
     {| objects := <[0 := OBytesIO (encode_utf8 "abc")
                           (Nat.max 0 (length (encode_utf8 "abc")))]>
                     (objects (Fixture.holding [OBytesIO (encode_utf8 "abc") 0]));
        sent := sent (Fixture.holding [OBytesIO (encode_utf8 "abc") 0]) |}).
Proof.
  exact (encode_images_same_buffer (Fixture.world 404 201 200 [])
           (Fixture.holding [OBytesIO (encode_utf8 "abc") 0]) 0 (encode_utf8 "abc") 0 eq_refl).
Defined.

(** X10: [chat] without messages sends them as they were given: null for
    None, an empty list for an empty list; the loop over the messages does
    nothing and the options become an empty object. *)
Theorem chat_without_messages (E : env) (model format : string) (messages : pyval)
    (s : state) (r : response) :
  let req := MkRequest "POST" "/api/chat"
    (JsonBody (JObj [("model", JStr model);
                     ("messages", match messages with PyNone => JNull | _ => JArr [] end);
                     ("stream", JBool false); ("format", JStr format);
                     ("options", JObj [])])) in
  is_empty model = false ->
  messages = PyNone \/ messages = PyList [] ->
  server E (sent s) req = Some r ->
  chat E model messages false format PyNone s
  = (if is_success r then
       match json_loads E (text r) with
       | Some j => Ok (Body j)
       | None => Raise (JSONDecodeError (text r))
       end
     else Raise (HTTPStatusError r),
     {| objects := objects s ++ [ODict []]; sent := sent s ++ [req] |}).
Proof.
  intros req Hm Hmsg Hs. unfold chat. rewrite Hm.
  unfold bind at 1, get_heap. unfold bind at 1.
  assert (Hor : py_or messages (ret (PyList [])) s = (Ok (PyList []), s))
    by (destruct Hmsg as [-> | ->]; reflexivity).
  rewrite Hor. unfold bind at 1, lift. cbn [py_iter]. unfold bind at 1. cbn [forM_].
  unfold ret at 1. unfold bind at 1. unfold py_or at 1. unfold bind at 1, get_heap.
  cbn [truthy]. unfold bind at 1, alloc at 1. unfold ret at 1. cbv iota beta.
  set (s1 := {| objects := objects s ++ [ODict []]; sent := sent s |}).
  assert (Hl : objects s1 !! length (objects s) = Some (ODict [])).
  { unfold s1. cbn [objects]. rewrite lookup_app_r by lia. rewrite Nat.sub_diag. reflexivity. }
  assert (Hb : build_request (objects s1) "POST" "/api/chat"
            (JsonArg [("model", PyStr model); ("messages", messages);
                      ("stream", PyBool false); ("format", PyStr format);
                      ("options", PyRef (length (objects s)))]) = Ok req).
  { unfold build_request. rewrite recursion_limit_S. cbn [result_mapM fst snd].
    rewrite !dumps_str, !dumps_bool, (dumps_empty_dict _ _ _ Hl).
    destruct Hmsg as [-> | ->]; [rewrite dumps_none | rewrite dumps_empty_list];
      reflexivity. }
  rewrite request_stream_run, Hb. unfold after, s1. cbn [objects sent]. rewrite Hs.
  reflexivity.
Qed.

Lemma chat_without_messages_witness :
  chat (Fixture.world 404 201 200 ["a"]) "llama2" PyNone false "" PyNone Fixture.start
  = (Ok (Body (Fixture.token "a")),
     {| objects := [ODict []];
        sent := [MkRequest "POST" "/api/chat"
                   (JsonBody (JObj [("model", JStr "llama2"); ("messages", JNull);
                                    ("stream", JBool false); ("format", JStr "");
                                    ("options", JObj [])]))] |}).
Proof.
  exact (chat_without_messages (Fixture.world 404 201 200 ["a"]) "llama2" "" PyNone
           Fixture.start (MkResponse 200 ["a"]) eq_refl (or_introl eq_refl) eq_refl).
Defined.

(** ** Images that are refused *)


Lemma image_shape_stable (h h' : heap) (v : pyval) :
  stable h h' -> ref_ok h v -> image_shape h' v = image_shape h v.
Proof.
  intros Hst Hv. destruct v; try reflexivity. simpl in *.
  destruct (lookup_lt_is_Some_2 h l Hv) as [o Ho]. rewrite Ho.
  destruct (Hst l o Ho) as (o' & -> & Hso).
  destruct o, o'; simpl in Hso; try contradiction; reflexivity.
Qed.

Lemma ref_ok_stable (h h' : heap) (v : pyval) : stable h h' -> ref_ok h v -> ref_ok h' v.
Proof.
  intros Hst Hv. destruct v; try exact I. simpl in *.
  pose proof (stable_length _ _ Hst). lia.
Qed.

Lemma encode_image_refused (E : env) (v : pyval) (s : state) :
  image_shape (objects s) v = false ->
  _encode_image E v s = (Raise (Exception (JStr images_message)), s).
Proof.
  intros Hv. destruct v; simpl in Hv; try discriminate; try reflexivity.
  unfold _encode_image, _as_bytesio. run.
  destruct (objects s !! l) as [[| |]|]; try discriminate; reflexivity.
Qed.

Lemma mapM_encode_refused (E : env) (imgs : list pyval) (v : pyval) (h : heap) (s : state) :
  In v imgs -> image_shape h v = false -> ref_ok h v -> stable h (objects s) ->
  exists e s', mapM (_encode_image E) imgs s = (Raise e, s') /\ sent s' = sent s
    /\ allowed e.
Proof.
  revert s. induction imgs as [|a imgs IH]; intros s Hin Hv Hok Hst; [destruct Hin|].
  cbn [mapM]. unfold bind at 1.
  destruct Hin as [-> | Hin].
  - rewrite encode_image_refused
      by (rewrite (image_shape_stable h (objects s) v Hst Hok); exact Hv).
    eexists _, s. repeat split. left. reflexivity.
  - destruct (encode_image_frame E a s) as (res & s1 & -> & Hs1 & Hst1 & Hres).
    destruct res as [b|e].
    + unfold bind at 1.
      destruct (IH s1 Hin Hv Hok (stable_trans _ _ _ Hst Hst1)) as (e & s2 & -> & Hs2 & He).
      exists e, s2. repeat split; [congruence | exact He].
    + exists e, s1. repeat split; [exact Hs1 | exact Hres].
Qed.

(** X8: [generate] with an image that is not a str, a path, bytes or a
    buffer raises and sends nothing, whatever the other images are; the
    exception is a validation error, or the error of the file system for
    an image before it that could not be read. *)
Theorem generate_refuses_image (E : env) (model prompt system template : string)
    (context : pyval) (stream raw : bool) (format : string) (imgs : list pyval)
    (options v : pyval) (s : state) :
  In v imgs ->
  image_shape (objects s) v = false ->
  ref_okb (objects s) v = true ->
  exists e s',
    generate E model prompt system template context stream raw format (PyList imgs)
      options s = (Raise e, s')
    /\ sent s' = sent s /\ allowed e.
Proof.
  intros Hin Hv Hok. apply ref_okb_spec in Hok. unfold generate.
  destruct (is_empty model).
  { exists (Exception (JStr "must provide a model")), s. repeat split. left. reflexivity. }
  unfold bind at 1.
  assert (Hctx : exists c, py_or context (ret (PyList [])) s = (Ok c, s)).
  { unfold py_or. run. destruct (truthy (objects s) context); eauto. }
  destruct Hctx as [c ->]. unfold bind at 1. rewrite py_or_list.
  unfold bind at 1. unfold encode_images. unfold bind at 1, get_heap.
  unfold bind at 1, lift. cbn [py_iter]. unfold bind at 1.
  destruct (mapM_encode_refused E imgs v (objects s) s Hin Hv Hok (stable_refl _))
    as (e & s' & -> & Hs & He).
  exists e, s'. repeat split; assumption.
Qed.

Lemma generate_refuses_image_witness :
  exists e s',
    generate (Fixture.world 404 201 200 ["a"]) "llama2" "hi" "" "" PyNone false false ""
      (PyList [PyBytes (encode_utf8 "abc"); PyInt 7]) PyNone Fixture.start = (Raise e, s')
    /\ sent s' = sent Fixture.start /\ allowed e.
Proof.
  exact (generate_refuses_image (Fixture.world 404 201 200 ["a"]) "llama2" "hi" "" "" PyNone
           false false "" [PyBytes (encode_utf8 "abc"); PyInt 7] PyNone (PyInt 7)
           Fixture.start (or_intror (or_introl eq_refl)) eq_refl eq_refl).
Defined.

(** ** Chunks, digests and the request of create *)

Lemma round_length (regs : list Z) (kw : Z * Z) :
  length (SHA256.round regs kw) = length regs.
Proof.
  unfold SHA256.round.
  destruct regs as [|a [|b [|c [|d [|e [|f [|g [|h [|i regs]]]]]]]]]; reflexivity.
Qed.

Lemma fold_round_length (kws : list (Z * Z)) (regs : list Z) :
  length (fold_left SHA256.round kws regs) = length regs.
Proof.
  revert regs. induction kws as [|kw kws IH]; intros regs; [reflexivity|].
  simpl. rewrite IH. apply round_length.
Qed.

Lemma compress_length (H : list Z) (block : bytes) :
  length (SHA256.compress H block) = length H.
Proof.
  unfold SHA256.compress. rewrite length_zip_with, fold_round_length. lia.
Qed.

Lemma fold_compress_length (bl : list bytes) (H : list Z) :
  length (fold_left SHA256.compress bl H) = length H.
Proof.
  revert H. induction bl as [|b bl IH]; intros H; [reflexivity|].
  simpl. rewrite IH. apply compress_length.
Qed.

Lemma flat_map_word_bytes_length (ws : list Z) :
  length (flat_map SHA256.word_bytes ws) = 4 * length ws.
Proof. induction ws as [|w ws IH]; simpl; lia. Qed.

Lemma hash_length (msg : bytes) : length (SHA256.hash msg) = 32.
Proof.
  unfold SHA256.hash. rewrite flat_map_word_bytes_length, fold_compress_length. reflexivity.
Qed.

Lemma hex_digit_lower (n : Z) :
  existsb (Ascii.eqb (SHA256.hex_digit n)) (list_ascii_of_string "0123456789abcdef") = true.
Proof.
  unfold SHA256.hex_digit. generalize (Z.to_nat n). intros k.
  do 17 (destruct k as [|k]; [reflexivity|]). reflexivity.
Qed.

Lemma hex_length (bs : bytes) : String.length (SHA256.hex bs) = 2 * length bs.
Proof. induction bs as [|b bs IH]; simpl; lia. Qed.

Lemma hex_lower (bs : bytes) : lower_hex (SHA256.hex bs) = true.
Proof.
  unfold lower_hex. induction bs as [|b bs IH]; [reflexivity|].
  cbn [SHA256.hex list_ascii_of_string forallb]. rewrite !hex_digit_lower. exact IH.
Qed.

(** X15: the digest of a blob is [sha256:] followed by 64 lowercase
    hexadecimal digits, whatever the content. *)
Theorem blob_digest_format (content : bytes) :
  exists h, blob_digest content = "sha256:" +:+ h
    /\ String.length h = 64 /\ lower_hex h = true.
Proof.
  exists (SHA256.hex (SHA256.hash content)). split; [|split].
  - unfold blob_digest, file_digest, SHA256.hexdigest. do 2 f_equal.
    apply digest_fed.
    exact (hash_loop_fed CHUNK {| f_data := content; f_pos := 0 |} SHA256.new []
             CHUNK_pos fed_new).
  - rewrite hex_length, hash_length. reflexivity.
  - apply hex_lower.
Qed.

(** X14: the chunks [upload_bytes] yields make up the bytes of the file
    from its position on; none is empty or longer than the size asked
    for, and every chunk but the last has exactly that size. *)
Theorem upload_bytes_chunks (n : nat) (r : file) :
  0 < n ->
  concat (upload_bytes n r) = drop (f_pos r) (f_data r)
  /\ Forall (fun chunk => 0 < length chunk <= n) (upload_bytes n r)
  /\ (forall i chunk, upload_bytes n r !! i = Some chunk ->
        S i < length (upload_bytes n r) -> length chunk = n).
Proof.
  intros Hn. split; [apply upload_bytes_concat; exact Hn|].
  funelim (upload_bytes n r).
  - split; [constructor|]. intros i chunk H0. discriminate.
  - destruct (H Hn) as [IH1 IH2]. clear H Heqcall.
    set (r' := {| f_data := f_data r;
                  f_pos := f_pos r + length (take n (drop (f_pos r) (f_data r))) |}) in *.
    assert (Hl : length (b :: chunk) = Nat.min n (length (drop (f_pos r) (f_data r))))
      by (rewrite <- e'; apply length_take).
    split.
    + constructor; [|exact IH1]. simpl in *. lia.
    + intros [|i] chunk'; simpl.
      * intros [= <-] Hlen.
        destruct (upload_bytes n r') as [|c cs] eqn:Hu; [simpl in Hlen; lia|].
        assert (Hne : drop (f_pos r') (f_data r') <> []).
        { rewrite <- (upload_bytes_concat n r' Hn), Hu. simpl.
          inversion IH1 as [|? ? Hc0 _]; subst. destruct c; simpl in *; [lia|discriminate]. }
        unfold r' in Hne. cbn [f_pos f_data] in Hne.
        destruct (Nat.le_gt_cases n (length (drop (f_pos r) (f_data r)))) as [Hle|Hgt];
          [simpl in *; lia|].
        exfalso. apply Hne. apply drop_ge. rewrite length_take, length_drop in *. lia.
      * intros Hi Hlen. apply (IH2 i chunk' Hi). lia.
Qed.

Lemma upload_bytes_chunks_witness :
  concat (upload_bytes 2 {| f_data := encode_utf8 "abcde"; f_pos := 1 |})
    = drop 1 (encode_utf8 "abcde")
  /\ Forall (fun chunk => 0 < length chunk <= 2)
       (upload_bytes 2 {| f_data := encode_utf8 "abcde"; f_pos := 1 |}).
Proof.
  destruct (upload_bytes_chunks 2 {| f_data := encode_utf8 "abcde"; f_pos := 1 |}
              ltac:(lia)) as (H1 & H2 & _).
  split; [exact H1 | exact H2].
Defined.

(** X20: [create] from a text without FROM and ADAPTER lines sends one
    POST to /api/create that carries the name, the text as the parser
    printed it and the stream flag. *)
Theorem create_text_payload (E : env) (model modelfile : string) (s : state) (r : response) :
  let parsed :=
    String.concat ""
      (map (fun line => if has_space line then line +:+ nl else line +:+ " " +:+ nl)
           (readlines modelfile)) in
  let req := MkRequest "POST" "/api/create"
    (JsonBody (JObj [("name", JStr model); ("modelfile", JStr parsed);
                     ("stream", JBool false)])) in
  forallb other_line (readlines modelfile) = true ->
  modelfile <> "" ->
  server E (sent s) req = Some r ->
  create E model PyNone (Some modelfile) false s
  = (if is_success r then
       match json_loads E (text r) with
       | Some j => Ok (Body j)
       | None => Raise (JSONDecodeError (text r))
       end
     else Raise (HTTPStatusError r),
     after s [req]).
Proof.
  intros parsed req Hother Hne Hs. unfold create. cbn [_as_path].
  assert (He : is_empty modelfile = false) by (destruct modelfile; [contradiction|reflexivity]).
  rewrite He. cbn [negb]. unfold bind at 1. unfold _parse_modelfile.
  rewrite (parse_lines_other E _ _ "" s Hother).
  rewrite (List.map_ext _ _ printed_line_cases).
  change ("" +:+ String.concat ""
            (map (fun line => if has_space line then line +:+ nl else line +:+ " " +:+ nl)
                 (readlines modelfile))) with parsed.
  assert (Hb : build_request (objects s) "POST" "/api/create"
            (JsonArg [("name", PyStr model); ("modelfile", PyStr parsed);
                      ("stream", PyBool false)]) = Ok req).
  { unfold build_request. rewrite recursion_limit_S. cbn [result_mapM fst snd].
    rewrite !dumps_str, dumps_bool. reflexivity. }
  rewrite request_stream_run, Hb, Hs. reflexivity.
Qed.

Lemma create_text_payload_witness :
  create (Fixture.world 404 201 200 ["a"]) "mario" PyNone (Some "SYSTEM You are Mario")
    false Fixture.start
  = (Ok (Body (Fixture.token "a")),
     after Fixture.start
       [MkRequest "POST" "/api/create"
          (JsonBody (JObj [("name", JStr "mario");
                           ("modelfile", JStr ("SYSTEM You are Mario" +:+ nl));
                           ("stream", JBool false)]))]).
Proof.
  exact (create_text_payload (Fixture.world 404 201 200 ["a"]) "mario"
           "SYSTEM You are Mario" Fixture.start (MkResponse 200 ["a"]) eq_refl
           ltac:(discriminate) eq_refl).
Defined.
